(** * Webhook forwarder plugin for Gotify: model of [plugin.go]

    The development embeds the three request handlers of the plugin
    ([handleWebhookMessage], [handleGenericWebhook], [handleGrafanaWebhook])
    as functions that return the trace of effects the Go code performs on one
    request: binding the body, calling the message handler, writing a JSON
    response.  The properties of the payload classification, of the
    normalisation of both dialects and of the delivery step are then proved
    about these functions.  The creation of an instance, [SetMessageHandler]
    and the page of instructions of [GetDisplay] are embedded as well. *)

From Stdlib Require Import ZArith Lia Floats.SpecFloat.
From stdpp Require Import gmap strings list fin_maps.

Set Warnings "-register-all".
Local Open Scope string_scope.
Local Open Scope Z_scope.

(** ** Go values *)

(** A Go [float64].  [S754_finite s m e] is [(-1)^s * m * 2^e]. *)
Abbreviation float64 := spec_float.

(** The dynamic values an [interface{}] of this program can hold: the six
    kinds [encoding/json] decodes into ([nil], [bool], [float64], [string],
    [[]interface{}], [map[string]interface{}]) and a Go [int], which
    [handleGenericWebhook] also looks for. *)
Inductive value : Type :=
  | VNil
  | VBool (b : bool)
  | VFloat64 (f : float64)
  | VInt (n : Z)
  | VString (s : string)
  | VSlice (l : list value)
  | VMap (m : gmap string value).

(** [m[k]] on a [map[string]interface{}]: the zero value [nil] when the key is
    absent. *)
Definition index (m : gmap string value) (k : string) : value :=
  default VNil (m !! k).

(** [_, ok := m[k]]. *)
Definition has_key (m : gmap string value) (k : string) : bool :=
  match m !! k with Some _ => true | None => false end.

(** The comma-ok type assertions [v.(string)], [v.(float64)], [v.(int)] and
    [v.(map[string]interface{})]. *)
Definition assert_string (v : value) : option string :=
  match v with VString s => Some s | _ => None end.

Definition assert_float64 (v : value) : option float64 :=
  match v with VFloat64 f => Some f | _ => None end.

Definition assert_int (v : value) : option Z :=
  match v with VInt n => Some n | _ => None end.

Definition assert_map (v : value) : option (gmap string value) :=
  match v with VMap m => Some m | _ => None end.

(** ** The conversion [int(priority)] of a [float64] *)

(** The targets the plugin is built for (README, "Building"). *)
Inductive goarch := amd64 | arm64 | arm.

(** Width of Go's [int]. *)
Definition int_bits (a : goarch) : Z :=
  match a with amd64 | arm64 => 64 | arm => 32 end.

Definition MinInt (a : goarch) : Z := - 2 ^ (int_bits a - 1).
Definition MaxInt (a : goarch) : Z := 2 ^ (int_bits a - 1) - 1.

(** The integer part of a finite float, fraction discarded (truncation toward
    zero); nothing for an infinity or a NaN. *)
Definition trunc (f : float64) : option Z :=
  match f with
  | S754_zero _ => Some 0
  | S754_finite s m e =>
      let mag := Z.shiftl (Z.pos m) e in
      Some (if s then - mag else mag)
  | S754_infinity _ | S754_nan => None
  end.

(** What the conversion instruction leaves when the value does not fit in an
    [int] (Go leaves this to the implementation): amd64's CVTTSD2SQ gives the
    "integer indefinite" value [MinInt]; the ARM conversions saturate and turn
    a NaN into 0. *)
Definition out_of_range (a : goarch) (f : float64) : Z :=
  match a with
  | amd64 => MinInt a
  | arm64 | arm =>
      match f with
      | S754_nan => 0
      | S754_infinity s | S754_zero s | S754_finite s _ _ =>
          if s then MinInt a else MaxInt a
      end
  end.

(** [int(f)]. *)
Definition int_of_float64 (a : goarch) (f : float64) : Z :=
  match trunc f with
  | Some t =>
      if (MinInt a <=? t) && (t <=? MaxInt a) then t else out_of_range a f
  | None => out_of_range a f
  end.

(** ** Data of the plugin *)

(** [WebhookMessage]. *)
Record WebhookMessage := {
  wm_Title : string;
  wm_Message : string;
  wm_Priority : Z;
  wm_Extras : option (gmap string value)   (* [None] is the nil map *)
}.

(** The fields of [GrafanaWebhook] that the handler assigns and reads; the
    others stay at their zero value and are never looked at. *)
Record GrafanaWebhook := {
  gw_Title : string;
  gw_Message : string;
  gw_Status : string;
  gw_State : string
}.

(** A [var] declaration leaves every field at its zero value; the handlers
    then assign fields one by one. *)
Definition WebhookMessage_zero : WebhookMessage :=
  {| wm_Title := ""; wm_Message := ""; wm_Priority := 0; wm_Extras := None |}.

Definition set_wm_Title (x : string) (w : WebhookMessage) : WebhookMessage :=
  {| wm_Title := x; wm_Message := wm_Message w;
     wm_Priority := wm_Priority w; wm_Extras := wm_Extras w |}.

Definition set_wm_Message (x : string) (w : WebhookMessage) : WebhookMessage :=
  {| wm_Title := wm_Title w; wm_Message := x;
     wm_Priority := wm_Priority w; wm_Extras := wm_Extras w |}.

Definition set_wm_Priority (x : Z) (w : WebhookMessage) : WebhookMessage :=
  {| wm_Title := wm_Title w; wm_Message := wm_Message w;
     wm_Priority := x; wm_Extras := wm_Extras w |}.

Definition set_wm_Extras (x : option (gmap string value)) (w : WebhookMessage)
    : WebhookMessage :=
  {| wm_Title := wm_Title w; wm_Message := wm_Message w;
     wm_Priority := wm_Priority w; wm_Extras := x |}.

Definition GrafanaWebhook_zero : GrafanaWebhook :=
  {| gw_Title := ""; gw_Message := ""; gw_Status := ""; gw_State := "" |}.

Definition set_gw_Title (x : string) (g : GrafanaWebhook) : GrafanaWebhook :=
  {| gw_Title := x; gw_Message := gw_Message g;
     gw_Status := gw_Status g; gw_State := gw_State g |}.

Definition set_gw_Message (x : string) (g : GrafanaWebhook) : GrafanaWebhook :=
  {| gw_Title := gw_Title g; gw_Message := x;
     gw_Status := gw_Status g; gw_State := gw_State g |}.

Definition set_gw_Status (x : string) (g : GrafanaWebhook) : GrafanaWebhook :=
  {| gw_Title := gw_Title g; gw_Message := gw_Message g;
     gw_Status := x; gw_State := gw_State g |}.

Definition set_gw_State (x : string) (g : GrafanaWebhook) : GrafanaWebhook :=
  {| gw_Title := gw_Title g; gw_Message := gw_Message g;
     gw_Status := gw_Status g; gw_State := x |}.

(** [plugin.Message], what [SendMessage] receives. *)
Record plugin_Message := {
  Title : string;
  Message : string;
  Priority : Z;
  Extras : option (gmap string value)
}.

(** [plugin.MessageHandler]: [SendMessage] answers [None] for a nil error and
    [Some e] for an error whose [Error()] is [e]. *)
Definition MessageHandler := plugin_Message -> option string.

(** [WebhookForwarderPlugin]; [msgHandler] is [None] until
    [SetMessageHandler] has been called.  [userCtx] is not read by the
    handlers of the message endpoint. *)
Record WebhookForwarderPlugin := {
  msgHandler : option MessageHandler
}.

(** ** The request and the effects of a handler *)

(** Outcome of [c.ShouldBindJSON(&rawBody)] on the body of the request: an
    error, or the decoded map, which is nil ([None]) for the body [null]. *)
Inductive BindResult :=
  | BindError (err : string)
  | BindOk (rawBody : option (gmap string value)).

(** The part of [gin.Context] the handlers read: the request headers (by
    canonical name, each with its list of values) and what binding its body
    gives. *)
Record Context := {
  Header : gmap string (list string);
  bindJSON : BindResult
}.

(** [c.GetHeader(key)]: the first value of the header, [""] when there is
    none. *)
Definition GetHeader (c : Context) (key : string) : string :=
  match Header c !! key with
  | Some (v :: _) => v
  | _ => ""
  end.

(** The two handlers [handleWebhookMessage] passes a payload to. *)
Inductive handler := HandleGrafana | HandleGeneric.

(** What a handler does, in order.  [Call] records which of the two handlers
    [handleWebhookMessage] hands the payload to. *)
Inductive event :=
  | ShouldBindJSON                               (* the body is decoded *)
  | Call (h : handler)                           (* the payload is handed on *)
  | SendMessage (msg : plugin_Message)           (* [p.msgHandler.SendMessage] *)
  | JSON (code : Z) (obj : gmap string value).   (* [c.JSON(code, obj)] *)

Definition StatusOK : Z := 200.
Definition StatusBadRequest : Z := 400.
Definition StatusInternalServerError : Z := 500.
Definition StatusServiceUnavailable : Z := 503.

(** A [gin.H{...}] literal. *)
Definition H (kvs : list (string * value)) : gmap string value :=
  list_to_map kvs.

(** ** The handlers *)

(** [handleGenericWebhook]: a standard webhook message.  None of the
    operations below can panic, so the deferred [recover] of the Go code never
    writes its response. *)
Definition handleGenericWebhook (a : goarch) (p : WebhookForwarderPlugin)
    (rawBody : gmap string value) : list event :=
  let webhookMsg := WebhookMessage_zero in
  (* Safely convert map to WebhookMessage struct with type assertions *)
  let webhookMsg :=
    match assert_string (index rawBody "title") with
    | Some title => set_wm_Title title webhookMsg
    | None => webhookMsg
    end in
  let webhookMsg :=
    match assert_string (index rawBody "message") with
    | Some message => set_wm_Message message webhookMsg
    | None => webhookMsg
    end in
  (* Handle both int and float64 for priority (JSON numbers are float64) *)
  let webhookMsg :=
    match assert_float64 (index rawBody "priority") with
    | Some priority => set_wm_Priority (int_of_float64 a priority) webhookMsg
    | None =>
        match assert_int (index rawBody "priority") with
        | Some priority => set_wm_Priority priority webhookMsg
        | None => webhookMsg
        end
    end in
  let webhookMsg :=
    match assert_map (index rawBody "extras") with
    | Some extras => set_wm_Extras (Some extras) webhookMsg
    | None => webhookMsg
    end in
  (* Validate required fields *)
  if String.eqb (wm_Message webhookMsg) "" then
    [JSON StatusBadRequest (H [("error", VString "Message field is required")])]
  else
    (* Set default title if not provided *)
    let webhookMsg :=
      if String.eqb (wm_Title webhookMsg) ""
      then set_wm_Title "Webhook Message" webhookMsg else webhookMsg in
    (* Set default priority if not provided (0) or invalid *)
    let webhookMsg :=
      if (wm_Priority webhookMsg <=? 0) || (wm_Priority webhookMsg >? 10)
      then set_wm_Priority 5 webhookMsg else webhookMsg in
    (* Forward message to Gotify user *)
    match msgHandler p with
    | Some h =>
        let msg := {| Title := wm_Title webhookMsg;
                      Message := wm_Message webhookMsg;
                      Priority := wm_Priority webhookMsg;
                      Extras := wm_Extras webhookMsg |} in
        match h msg with
        | Some err =>
            [SendMessage msg;
             JSON StatusInternalServerError
               (H [("error", VString "Failed to forward message");
                   ("details", VString err)])]
        | None =>
            [SendMessage msg;
             JSON StatusOK
               (H [("success", VBool true);
                   ("message", VString "Message forwarded successfully")])]
        end
    | None =>
        [JSON StatusServiceUnavailable
           (H [("error", VString "Message handler not available")])]
    end.

(** [handleGrafanaWebhook]: a Grafana alert.  Here too nothing can panic. *)
Definition handleGrafanaWebhook (p : WebhookForwarderPlugin)
    (rawBody : gmap string value) : list event :=
  let grafanaMsg := GrafanaWebhook_zero in
  (* Safely extract fields from the raw body map with type assertions *)
  let grafanaMsg :=
    match assert_string (index rawBody "title") with
    | Some title => set_gw_Title title grafanaMsg
    | None => grafanaMsg
    end in
  let grafanaMsg :=
    match assert_string (index rawBody "message") with
    | Some message => set_gw_Message message grafanaMsg
    | None => grafanaMsg
    end in
  let grafanaMsg :=
    match assert_string (index rawBody "status") with
    | Some status => set_gw_Status status grafanaMsg
    | None => grafanaMsg
    end in
  let grafanaMsg :=
    match assert_string (index rawBody "state") with
    | Some state => set_gw_State state grafanaMsg
    | None => grafanaMsg
    end in
  (* Determine priority based on Grafana alert status *)
  let priority :=
    if String.eqb (gw_Status grafanaMsg) "firing"
       || String.eqb (gw_State grafanaMsg) "alerting" then 8
    else if String.eqb (gw_Status grafanaMsg) "resolved"
            || String.eqb (gw_State grafanaMsg) "ok" then 3
    else 5 in
  (* Use Grafana's title if available, otherwise construct one *)
  let title :=
    if String.eqb (gw_Title grafanaMsg) "" then
      if negb (String.eqb (gw_Status grafanaMsg) "")
      then "Grafana Alert: " +:+ gw_Status grafanaMsg
      else "Grafana Alert"
    else gw_Title grafanaMsg in
  (* Use Grafana's message if available *)
  let message :=
    if String.eqb (gw_Message grafanaMsg) ""
    then "Alert notification from Grafana"
    else gw_Message grafanaMsg in
  (* Build extras with relevant Grafana data *)
  let extras : gmap string value := ∅ in
  let extras := <["source" := VString "grafana"]> extras in
  let extras :=
    if negb (String.eqb (gw_Status grafanaMsg) "")
    then <["status" := VString (gw_Status grafanaMsg)]> extras else extras in
  let extras :=
    if negb (String.eqb (gw_State grafanaMsg) "")
    then <["state" := VString (gw_State grafanaMsg)]> extras else extras in
  let extras :=
    match assert_string (index rawBody "externalURL") with
    | Some externalURL =>
        if negb (String.eqb externalURL "")
        then <["externalURL" := VString externalURL]> extras else extras
    | None => extras
    end in
  let extras :=
    match assert_string (index rawBody "dashboardURL") with
    | Some dashboardURL =>
        if negb (String.eqb dashboardURL "")
        then <["dashboardURL" := VString dashboardURL]> extras else extras
    | None => extras
    end in
  let extras :=
    match assert_string (index rawBody "silenceURL") with
    | Some silenceURL =>
        if negb (String.eqb silenceURL "")
        then <["silenceURL" := VString silenceURL]> extras else extras
    | None => extras
    end in
  (* Forward message to Gotify user *)
  match msgHandler p with
  | Some h =>
      let msg := {| Title := title; Message := message;
                    Priority := priority; Extras := Some extras |} in
      match h msg with
      | Some err =>
          [SendMessage msg;
           JSON StatusInternalServerError
             (H [("error", VString "Failed to forward Grafana alert");
                 ("details", VString err)])]
      | None =>
          [SendMessage msg;
           JSON StatusOK
             (H [("success", VBool true);
                 ("message", VString "Grafana alert forwarded successfully");
                 ("type", VString "grafana")])]
      end
  | None =>
      [JSON StatusServiceUnavailable
         (H [("error", VString "Message handler not available")])]
  end.

(** [handleWebhookMessage]: the endpoint [POST /message].  The trace of the
    handler the payload is handed to follows the [Call]. *)
Definition handleWebhookMessage (a : goarch) (p : WebhookForwarderPlugin)
    (c : Context) : list event :=
  (* Validate content type *)
  let contentType := GetHeader c "Content-Type" in
  if negb (String.eqb contentType "application/json")
     && negb (String.eqb contentType "") then
    [JSON StatusBadRequest
       (H [("error", VString "Content-Type must be application/json")])]
  else
    (* decode the body, to detect a Grafana webhook *)
    ShouldBindJSON ::
    match bindJSON c with
    | BindError err =>
        [JSON StatusBadRequest
           (H [("error", VString "Invalid JSON payload");
               ("details", VString err)])]
    | BindOk None =>
        (* nil body *)
        [JSON StatusBadRequest (H [("error", VString "Empty request body")])]
    | BindOk (Some rawBody) =>
        (* has alerts field: this looks like a Grafana webhook *)
        if has_key rawBody "alerts" then
          Call HandleGrafana :: handleGrafanaWebhook p rawBody
        else
          (* Otherwise, treat as generic webhook *)
          Call HandleGeneric :: handleGenericWebhook a p rawBody
    end.

(** ** Reading a trace *)

(** The notifications handed to the message handler. *)
Definition sent (tr : list event) : list plugin_Message :=
  omap (fun e => match e with SendMessage msg => Some msg | _ => None end) tr.

(** The responses written. *)
Definition responses (tr : list event) : list (Z * gmap string value) :=
  omap (fun e => match e with JSON code obj => Some (code, obj) | _ => None end) tr.

(** The string a handler extracts for the key [k]: the value at [k] when the
    key is there and holds a string, the zero value [""] otherwise. *)
Definition string_field (rawBody : gmap string value) (k : string) : string :=
  default "" (assert_string (index rawBody k)).

(** The block "Forward message to Gotify user" that both handlers end with, as
    a function of the notification and of the two texts in which the handlers
    differ: the error text of a failed send and the body of the 200
    response. *)
Definition forward (p : WebhookForwarderPlugin) (msg : plugin_Message)
    (failure : string) (success : gmap string value) : list event :=
  match msgHandler p with
  | Some h =>
      match h msg with
      | Some err =>
          [SendMessage msg;
           JSON StatusInternalServerError
             (H [("error", VString failure); ("details", VString err)])]
      | None => [SendMessage msg; JSON StatusOK success]
      end
  | None =>
      [JSON StatusServiceUnavailable
         (H [("error", VString "Message handler not available")])]
  end.

(** The keys [handleGrafanaWebhook] reads from a payload. *)
Definition grafana_keys : list string :=
  ["title"; "message"; "status"; "state";
   "externalURL"; "dashboardURL"; "silenceURL"].

(** ** Vocabulary of the properties *)

(** "The key [k] of the payload equals the string [s]". *)
Definition is_string (rawBody : gmap string value) (k s : string) : Prop :=
  rawBody !! k = Some (VString s).

(** The three outcomes of the delivery step, read on the trace [tr] of a
    handler: no message handler, 503 and nothing sent; a send that fails with
    [err], 500 with [err] under "details"; a send that succeeds, 200 with
    "success" true and [type] under "type". *)
Definition delivery_outcome (p : WebhookForwarderPlugin) (tr : list event)
    (type : option value) : Prop :=
  match msgHandler p with
  | None => ∃ obj, tr = [JSON StatusServiceUnavailable obj]
  | Some h =>
      ∃ msg,
        match h msg with
        | Some err =>
            ∃ obj, tr = [SendMessage msg; JSON StatusInternalServerError obj]
                   ∧ obj !! "details" = Some (VString err)
        | None =>
            ∃ obj, tr = [SendMessage msg; JSON StatusOK obj]
                   ∧ obj !! "success" = Some (VBool true)
                   ∧ obj !! "type" = type
        end
  end.

(** ** Plugins, requests and payloads of the test suite

    [MockMessageHandler] with [shouldFail] unset and set, a plugin whose
    message handler was never set, the float64 a JSON integer literal decodes
    to, and a POST with the given values of Content-Type. *)

Definition mock_ok : WebhookForwarderPlugin :=
  {| msgHandler := Some (fun _ => None) |}.

Definition mock_fail : WebhookForwarderPlugin :=
  {| msgHandler := Some (fun _ => Some "assert.AnError general error for testing") |}.

Definition no_handler : WebhookForwarderPlugin := {| msgHandler := None |}.

Definition num (n : Z) : value := VFloat64 (binary_normalize 53 1024 n 0 false).

Definition post (contentType : list string) (r : BindResult) : Context :=
  {| Header := match contentType with
               | [] => ∅
               | _ => {[ "Content-Type" := contentType ]}
               end;
     bindJSON := r |}.

Definition post_json (obj : list (string * value)) : Context :=
  post ["application/json"] (BindOk (Some (H obj))).

(** A Grafana payload whose status and state disagree, the notification it
    gives, and the same payload with another "alerts" and more keys. *)
Definition resolved_alerting : gmap string value :=
  H [("status", VString "resolved"); ("state", VString "alerting");
     ("alerts", VSlice [])].

Definition resolved_alerting_msg : plugin_Message :=
  {| Title := "Grafana Alert: resolved";
     Message := "Alert notification from Grafana";
     Priority := 8;
     Extras := Some (H [("source", VString "grafana");
                        ("status", VString "resolved");
                        ("state", VString "alerting")]) |}.

Definition resolved_alerting' : gmap string value :=
  H [("status", VString "resolved"); ("state", VString "alerting");
     ("alerts", VNil); ("receiver", VString "gotify"); ("orgId", num 1)].

(** A generic payload with the priority 7.5, and the notification it gives. *)
Definition priority_7 : gmap string value :=
  H [("message", VString "Test Message");
     ("priority", VFloat64 (binary_normalize 53 1024 15 (-1) false))].

Definition priority_7_msg : plugin_Message :=
  {| Title := "Webhook Message"; Message := "Test Message";
     Priority := 7; Extras := None |}.

(** The keys [handleGenericWebhook] reads from a payload. *)
Definition generic_keys : list string :=
  ["title"; "message"; "priority"; "extras"].

(** The keys under which [handleGrafanaWebhook] copies a string of the payload
    into the metadata. *)
Definition grafana_copied_keys : list string :=
  ["status"; "state"; "externalURL"; "dashboardURL"; "silenceURL"].

(** The payload [priority_7] with keys the generic handler does not read. *)
Definition priority_7_more : gmap string value :=
  H [("message", VString "Test Message");
     ("priority", VFloat64 (binary_normalize 53 1024 15 (-1) false));
     ("status", VString "firing"); ("tags", VSlice [VString "a"])].

(** ** The page of instructions: [GetDisplay] *)

(** The functions of the package [strings] that [GetDisplay] calls, on the
    bytes of a string.  [Contains s substr]: [substr] occurs in [s].
    [HasSuffix s suffix]: [s] is at least as long as [suffix] and its last
    bytes are [suffix].  [TrimSuffix s suffix]: [s] without the trailing
    [suffix], and [s] as it is when it does not end with [suffix]. *)
Fixpoint Contains (s substr : string) : bool :=
  String.prefix substr s ||
  match s with
  | EmptyString => false
  | String _ s' => Contains s' substr
  end.

Definition HasSuffix (s suffix : string) : bool :=
  (String.length suffix <=? String.length s)%nat
  && String.eqb
       (String.substring (String.length s - String.length suffix)
          (String.length suffix) s)
       suffix.

Definition TrimSuffix (s suffix : string) : string :=
  if HasSuffix s suffix
  then String.substring 0 (String.length s - String.length suffix) s
  else s.

(** The fields of [url.URL] that [GetDisplay] reads. *)
Record URL := {
  Scheme : string;
  Host : string;
  Path : string
}.

(** [plugin.UserContext]. *)
Record UserContext := {
  ID : N;
  Name : string;
  Admin : bool
}.

(** [WebhookForwarderPlugin] with both its fields: [msgHandler], in the record
    the handlers of the message endpoint take, and [userCtx]. *)
Record Instance := {
  plugin : WebhookForwarderPlugin;
  userCtx : UserContext
}.

(** [NewGotifyPluginInstance]: no message handler yet. *)
Definition NewGotifyPluginInstance (ctx : UserContext) : Instance :=
  {| plugin := {| msgHandler := None |}; userCtx := ctx |}.

(** [SetMessageHandler]: [p.msgHandler = h], for a handler or the nil
    interface. *)
Definition SetMessageHandler (h : option MessageHandler) (p : Instance)
    : Instance :=
  {| plugin := {| msgHandler := h |}; userCtx := userCtx p |}.

(** The double quote. *)
Definition dq : string := String (Ascii.ascii_of_nat 34) EmptyString.

(** The format of [GetDisplay], cut at its seven [%s]; the second, fourth and
    sixth [%s] follow the first, third and fifth without text in between, and
    nothing follows the last.  The pieces of a list are the text between two
    double quotes of the format. *)
Definition display_format_0 : string :=
"# Webhook Forwarder Plugin

## Webhook Endpoint
POST ".

Definition display_format_1 : string :=
"/message

## Usage

### Generic Webhooks
Send JSON payload with message content:

```bash
curl -X POST ".

Definition display_format_2 : string :=
  String.concat dq
    ["/message \
  -H ";
     "Content-Type: application/json";
     " \
  -d '{
    ";
     "title";
     ": ";
     "Alert Title";
     ", 
    ";
     "message";
     ": ";
     "Your message here";
     ",
    ";
     "priority";
     ": 5
  }'
```

### Grafana Integration
1. In Grafana, go to Alerting > Contact Points
2. Add new contact point with type ";
     "webhook";
     "
3. Set URL to: "].

Definition display_format_3 : string :=
  String.concat dq
    ["/message
4. Set method to POST
5. Save configuration

Grafana alerts are automatically detected and formatted with appropriate priority levels.

## Supported Fields

| Field | Required | Default | Description |
|-------|----------|---------|-------------|
| message | Yes | - | Message content |
| title | No | ";
     "Webhook Message";
     " | Message title |
| priority | No | 5 | Priority level (1-10) |
| extras | No | {} | Custom data |

## Priority Levels
- 1-2: Low (resolved alerts)
- 3-5: Normal
- 6-8: High (firing alerts) 
- 9-10: Critical

Grafana alerts automatically receive priority 8 when firing and priority 3 when resolved.

Active user: "].

(** [fmt.Sprintf] of that format: each [%s] is replaced by its argument. *)
Definition Sprintf_display (a1 a2 a3 a4 a5 a6 a7 : string) : string :=
  display_format_0 +:+ a1 +:+ a2 +:+
  display_format_1 +:+ a3 +:+ a4 +:+
  display_format_2 +:+ a5 +:+ a6 +:+
  display_format_3 +:+ a7.

(** [GetDisplay]. *)
Definition GetDisplay (p : Instance) (location : option URL) : string :=
  let baseURL := "" in
  let baseURL :=
    match location with
    | Some l => Scheme l +:+ "://" +:+ Host l
    | None => baseURL
    end in
  let pluginPath := "/plugin/YOUR_PLUGIN_ID/custom/YOUR_USER_TOKEN" in
  let pluginPath :=
    match location with
    | Some l =>
        if negb (String.eqb (Path l) "") then
          (* Path format: /plugin/{id}/custom/{token}/display *)
          if Contains (Path l) "/display"
          then TrimSuffix (Path l) "/display"
          else pluginPath
        else pluginPath
    | None => pluginPath
    end in
  Sprintf_display baseURL pluginPath baseURL pluginPath baseURL pluginPath
    (Name (userCtx p)).

(** The instance and the location of [TestWebhookForwarderPlugin_GetDisplay]. *)
Definition testuser : Instance :=
  NewGotifyPluginInstance {| ID := 1; Name := "testuser"; Admin := false |}.

Definition test_location : URL :=
  {| Scheme := "https"; Host := "gotify.example.com";
     Path := "/plugin/5/display" |}.

(** Locations whose path has "/display" before a last slash, and no
    "/display". *)
Definition display_slash : URL :=
  {| Scheme := "https"; Host := "gotify.example.com";
     Path := "/plugin/5/display/" |}.

Definition no_display : URL :=
  {| Scheme := "https"; Host := "gotify.example.com"; Path := "/plugin/5" |}.

(** ** The test suite *)

Example test_valid_message_with_all_fields :
  sent (handleWebhookMessage amd64 mock_ok
          (post_json [("title", VString "Test Title");
                      ("message", VString "Test Message");
                      ("priority", num 7);
                      ("extras", VMap (H [("key", VString "value")]))]))
  = [ {| Title := "Test Title"; Message := "Test Message"; Priority := 7;
         Extras := Some (H [("key", VString "value")]) |} ].
Proof. reflexivity. Qed.

Example test_message_without_title_uses_default (a : goarch) :
  handleWebhookMessage a mock_ok (post_json [("message", VString "Test Message")])
  = [ ShouldBindJSON; Call HandleGeneric;
      SendMessage {| Title := "Webhook Message"; Message := "Test Message";
                     Priority := 5; Extras := None |};
      JSON 200 (H [("success", VBool true);
                   ("message", VString "Message forwarded successfully")]) ].
Proof. destruct a; reflexivity. Qed.

Example test_invalid_priority_gets_default (a : goarch) :
  sent (handleWebhookMessage a mock_ok
          (post_json [("message", VString "Test Message"); ("priority", num 15)]))
  = [ {| Title := "Webhook Message"; Message := "Test Message";
         Priority := 5; Extras := None |} ].
Proof. destruct a; reflexivity. Qed.

Example test_missing_message_field (a : goarch) :
  handleWebhookMessage a mock_ok (post_json [("title", VString "Title Only")])
  = [ ShouldBindJSON; Call HandleGeneric;
      JSON 400 (H [("error", VString "Message field is required")]) ].
Proof. reflexivity. Qed.

Example test_invalid_JSON (a : goarch) (err : string) :
  handleWebhookMessage a mock_ok (post ["application/json"] (BindError err))
  = [ ShouldBindJSON;
      JSON 400 (H [("error", VString "Invalid JSON payload");
                   ("details", VString err)]) ].
Proof. reflexivity. Qed.

Example test_handler_fails (a : goarch) :
  responses (handleWebhookMessage a mock_fail
               (post_json [("message", VString "Test Message")]))
  = [ (500, H [("error", VString "Failed to forward message");
               ("details", VString "assert.AnError general error for testing")]) ].
Proof. destruct a; reflexivity. Qed.

Example test_grafana_firing_alert (a : goarch) :
  sent (handleWebhookMessage a mock_ok
          (post_json [("title", VString "[FIRING:1] TestAlert Grafana");
                      ("status", VString "firing");
                      ("state", VString "alerting");
                      ("message", VString "**Firing**");
                      ("alerts", VSlice [])]))
  = [ {| Title := "[FIRING:1] TestAlert Grafana"; Message := "**Firing**";
         Priority := 8;
         Extras := Some (H [("source", VString "grafana");
                            ("status", VString "firing");
                            ("state", VString "alerting")]) |} ].
Proof. vm_compute. reflexivity. Qed.

Example test_grafana_resolved_alert (a : goarch) :
  sent (handleWebhookMessage a mock_ok
          (post_json [("title", VString "[RESOLVED] TestAlert");
                      ("status", VString "resolved");
                      ("state", VString "ok");
                      ("message", VString "Alert resolved");
                      ("alerts", VSlice [])]))
  = [ {| Title := "[RESOLVED] TestAlert"; Message := "Alert resolved";
         Priority := 3;
         Extras := Some (H [("source", VString "grafana");
                            ("status", VString "resolved");
                            ("state", VString "ok")]) |} ].
Proof. vm_compute. reflexivity. Qed.

Example test_no_message_handler (a : goarch) :
  handleWebhookMessage a no_handler (post_json [("message", VString "Test Message")])
  = [ ShouldBindJSON; Call HandleGeneric;
      JSON 503 (H [("error", VString "Message handler not available")]) ].
Proof. destruct a; reflexivity. Qed.

(** ** Type assertions on the fields of a payload *)

Lemma assert_string_index (m : gmap string value) (k s : string) :
  assert_string (index m k) = Some s ↔ m !! k = Some (VString s).
Proof.
  unfold index. destruct (m !! k) as [v|]; simpl.
  - destruct v; simpl; split; congruence.
  - split; discriminate.
Qed.

Lemma assert_string_index_None (m : gmap string value) (k : string) :
  assert_string (index m k) = None ↔ ∀ s, m !! k ≠ Some (VString s).
Proof.
  split.
  - intros Hn s Hs. apply assert_string_index in Hs. congruence.
  - intros Hn. destruct (assert_string (index m k)) as [s|] eqn:E; [|done].
    apply assert_string_index in E. by destruct (Hn s).
Qed.

Lemma assert_float64_index (m : gmap string value) (k : string) (f : float64) :
  assert_float64 (index m k) = Some f ↔ m !! k = Some (VFloat64 f).
Proof.
  unfold index. destruct (m !! k) as [v|]; simpl.
  - destruct v; simpl; split; congruence.
  - split; discriminate.
Qed.

Lemma assert_int_index (m : gmap string value) (k : string) (n : Z) :
  assert_int (index m k) = Some n ↔ m !! k = Some (VInt n).
Proof.
  unfold index. destruct (m !! k) as [v|]; simpl.
  - destruct v; simpl; split; congruence.
  - split; discriminate.
Qed.

Lemma assert_map_index (m : gmap string value) (k : string) (e : gmap string value) :
  assert_map (index m k) = Some e ↔ m !! k = Some (VMap e).
Proof.
  unfold index. destruct (m !! k) as [v|]; simpl.
  - destruct v; simpl; split; congruence.
  - split; discriminate.
Qed.

Lemma has_key_is_Some (m : gmap string value) (k : string) :
  has_key m k = true ↔ is_Some (m !! k).
Proof.
  unfold has_key. destruct (m !! k); split; done.
Qed.

Lemma has_key_None (m : gmap string value) (k : string) :
  has_key m k = false ↔ m !! k = None.
Proof. unfold has_key. by destruct (m !! k). Qed.

(** The header check of [handleWebhookMessage] in terms of the value
    [GetHeader] reads. *)
Lemma content_type_rejected (a : goarch) (p : WebhookForwarderPlugin) (c : Context) :
  GetHeader c "Content-Type" ≠ "application/json" →
  GetHeader c "Content-Type" ≠ "" →
  handleWebhookMessage a p c =
    [JSON StatusBadRequest
       (H [("error", VString "Content-Type must be application/json")])].
Proof.
  intros H1 H2. unfold handleWebhookMessage.
  apply String.eqb_neq in H1, H2. by rewrite H1, H2.
Qed.

Lemma content_type_accepted (a : goarch) (p : WebhookForwarderPlugin) (c : Context) :
  GetHeader c "Content-Type" = "application/json" ∨ GetHeader c "Content-Type" = "" →
  handleWebhookMessage a p c =
    ShouldBindJSON ::
    match bindJSON c with
    | BindError err =>
        [JSON StatusBadRequest
           (H [("error", VString "Invalid JSON payload");
               ("details", VString err)])]
    | BindOk None =>
        [JSON StatusBadRequest (H [("error", VString "Empty request body")])]
    | BindOk (Some rawBody) =>
        if has_key rawBody "alerts" then
          Call HandleGrafana :: handleGrafanaWebhook p rawBody
        else
          Call HandleGeneric :: handleGenericWebhook a p rawBody
    end.
Proof.
  intros Hct. unfold handleWebhookMessage.
  destruct Hct as [-> | ->]; reflexivity.
Qed.

(** ** Classification *)

(** C1. For every request that reaches decoding and whose body decodes to a
    JSON object: when the object has a key "alerts" (with any value) the
    payload is handed to the Grafana handler, and when it has no such key it
    is handed to the generic handler. *)
Theorem handleWebhookMessage_classification
    (a : goarch) (p : WebhookForwarderPlugin) (c : Context)
    (rawBody : gmap string value) :
  GetHeader c "Content-Type" = "application/json" ∨ GetHeader c "Content-Type" = "" →
  bindJSON c = BindOk (Some rawBody) →
  (is_Some (rawBody !! "alerts") →
     handleWebhookMessage a p c =
       ShouldBindJSON :: Call HandleGrafana :: handleGrafanaWebhook p rawBody) ∧
  (rawBody !! "alerts" = None →
     handleWebhookMessage a p c =
       ShouldBindJSON :: Call HandleGeneric :: handleGenericWebhook a p rawBody).
Proof.
  intros Hct Hbind. rewrite (content_type_accepted a p c Hct), Hbind. split.
  - intros Hk. apply has_key_is_Some in Hk. by rewrite Hk.
  - intros Hk. apply has_key_None in Hk. by rewrite Hk.
Qed.

Lemma handleWebhookMessage_classification_witness :
  handleWebhookMessage arm mock_ok (post [] (BindOk (Some (H [("alerts", VNil)]))))
    = ShouldBindJSON :: Call HandleGrafana ::
        handleGrafanaWebhook mock_ok (H [("alerts", VNil)])
  ∧ handleWebhookMessage arm mock_ok (post_json [("message", VString "m")])
    = ShouldBindJSON :: Call HandleGeneric ::
        handleGenericWebhook arm mock_ok (H [("message", VString "m")]).
Proof.
  split.
  - apply (handleWebhookMessage_classification arm mock_ok
             (post [] (BindOk (Some (H [("alerts", VNil)]))))
             (H [("alerts", VNil)])).
    + right. reflexivity.
    + reflexivity.
    + exists VNil. reflexivity.
  - apply (handleWebhookMessage_classification arm mock_ok
             (post_json [("message", VString "m")])
             (H [("message", VString "m")])).
    + left. reflexivity.
    + reflexivity.
    + reflexivity.
Defined.


(** ** The handlers in terms of the fields they extract *)

Lemma string_field_string (rawBody : gmap string value) (k s : string) :
  rawBody !! k = Some (VString s) → string_field rawBody k = s.
Proof.
  intros Hk. apply assert_string_index in Hk.
  unfold string_field. by rewrite Hk.
Qed.

Lemma string_field_other (rawBody : gmap string value) (k : string) :
  (∀ s, rawBody !! k ≠ Some (VString s)) → string_field rawBody k = "".
Proof.
  intros Hk. apply assert_string_index_None in Hk.
  unfold string_field. by rewrite Hk.
Qed.

Lemma string_field_nonempty (rawBody : gmap string value) (k : string) :
  string_field rawBody k ≠ "" →
  rawBody !! k = Some (VString (string_field rawBody k)).
Proof.
  unfold string_field. intros Hne.
  destruct (assert_string (index rawBody k)) as [s|] eqn:E; [|done].
  by apply assert_string_index in E.
Qed.

(** [handleGenericWebhook]: validation of the extracted message, then the
    forwarding of the notification built from the extracted fields and the
    defaults. *)
Lemma handleGenericWebhook_forward (a : goarch) (p : WebhookForwarderPlugin)
    (rawBody : gmap string value) :
  handleGenericWebhook a p rawBody =
    let title := string_field rawBody "title" in
    let message := string_field rawBody "message" in
    let priority :=
      match assert_float64 (index rawBody "priority") with
      | Some f => int_of_float64 a f
      | None => default 0 (assert_int (index rawBody "priority"))
      end in
    if String.eqb message "" then
      [JSON StatusBadRequest (H [("error", VString "Message field is required")])]
    else
      forward p
        {| Title := if String.eqb title "" then "Webhook Message" else title;
           Message := message;
           Priority := if (priority <=? 0) || (priority >? 10) then 5 else priority;
           Extras := assert_map (index rawBody "extras") |}
        "Failed to forward message"
        (H [("success", VBool true);
            ("message", VString "Message forwarded successfully")]).
Proof.
  unfold handleGenericWebhook, forward, string_field.
  generalize (assert_map (index rawBody "extras")),
             (assert_int (index rawBody "priority")),
             (assert_float64 (index rawBody "priority")),
             (assert_string (index rawBody "message")),
             (assert_string (index rawBody "title")).
  intros extras n f message title.
  destruct title as [title|], message as [message|], f as [f|], n as [n|],
    extras as [extras|];
  cbn [from_option id wm_Message wm_Title wm_Priority wm_Extras
       set_wm_Title set_wm_Message set_wm_Priority set_wm_Extras
       WebhookMessage_zero]; unfold id;
  rewrite ?String.eqb_refl; try reflexivity.
  all: (destruct (String.eqb message ""); [reflexivity|]);
  try destruct (String.eqb title "");
  cbn [wm_Message wm_Title wm_Priority wm_Extras
       set_wm_Title set_wm_Message set_wm_Priority set_wm_Extras
       WebhookMessage_zero];
  try match goal with
  | |- context [(?x <=? 0) || (?x >? 10)] => destruct ((x <=? 0) || (x >? 10))
  end;
  cbn [wm_Message wm_Title wm_Priority wm_Extras
       set_wm_Title set_wm_Message set_wm_Priority set_wm_Extras
       WebhookMessage_zero];
  reflexivity.
Qed.

(** An entry written under one key leaves the others as they were; the two
    shapes in which [handleGrafanaWebhook] writes an entry. *)
Lemma lookup_insert_if (c : bool) (k j : string) (v : value)
    (extras : gmap string value) :
  k ≠ j → (if c then <[k := v]> extras else extras) !! j = extras !! j.
Proof. intros Hne. destruct c; [by rewrite lookup_insert_ne | done]. Qed.

Lemma lookup_insert_url (o : option string) (k j : string)
    (extras : gmap string value) :
  k ≠ j →
  match o with
  | Some u => if negb (String.eqb u "") then <[k := VString u]> extras else extras
  | None => extras
  end !! j = extras !! j.
Proof. intros Hne. destruct o; [by apply lookup_insert_if | done]. Qed.

(** [handleGrafanaWebhook] never rejects: whatever the plugin, it forwards one
    notification, whose fields are these functions of the extracted
    strings. *)
Lemma handleGrafanaWebhook_forward (rawBody : gmap string value) :
  ∃ msg : plugin_Message,
    let title := string_field rawBody "title" in
    let message := string_field rawBody "message" in
    let status := string_field rawBody "status" in
    let state := string_field rawBody "state" in
    Title msg =
      (if String.eqb title "" then
         if String.eqb status "" then "Grafana Alert"
         else "Grafana Alert: " +:+ status
       else title) ∧
    Message msg =
      (if String.eqb message "" then "Alert notification from Grafana"
       else message) ∧
    Priority msg =
      (if String.eqb status "firing" || String.eqb state "alerting" then 8
       else if String.eqb status "resolved" || String.eqb state "ok" then 3
       else 5) ∧
    (∃ extras, Extras msg = Some extras
               ∧ extras !! "source" = Some (VString "grafana")) ∧
    ∀ p : WebhookForwarderPlugin,
      handleGrafanaWebhook p rawBody =
        forward p msg "Failed to forward Grafana alert"
          (H [("success", VBool true);
              ("message", VString "Grafana alert forwarded successfully");
              ("type", VString "grafana")]).
Proof.
  unfold string_field.
  let t := eval cbv beta zeta delta [handleGrafanaWebhook msgHandler] in
             (handleGrafanaWebhook {| msgHandler := Some (fun _ => None) |} rawBody) in
  match t with context [SendMessage ?M] => exists M end.
  cbn [Title Message Priority Extras].
  split_and!.
  - destruct (assert_string (index rawBody "title")) as [title|],
      (assert_string (index rawBody "message")) as [message|],
      (assert_string (index rawBody "status")) as [status|],
      (assert_string (index rawBody "state")) as [state|];
      cbn; rewrite ?String.eqb_refl; try reflexivity;
      try destruct (String.eqb title ""); try destruct (String.eqb status "");
      reflexivity.
  - destruct (assert_string (index rawBody "title")) as [title|],
      (assert_string (index rawBody "message")) as [message|],
      (assert_string (index rawBody "status")) as [status|],
      (assert_string (index rawBody "state")) as [state|]; reflexivity.
  - destruct (assert_string (index rawBody "title")) as [title|],
      (assert_string (index rawBody "message")) as [message|],
      (assert_string (index rawBody "status")) as [status|],
      (assert_string (index rawBody "state")) as [state|]; reflexivity.
  - eexists. split; [reflexivity|].
    rewrite !lookup_insert_url by done.
    rewrite !lookup_insert_if by done.
    apply lookup_insert_eq.
  - intros p. cbv beta zeta delta [handleGrafanaWebhook forward].
    destruct (msgHandler p); reflexivity.
Qed.

(** ** What forwarding leaves in the trace *)

Lemma forward_SendMessage (p : WebhookForwarderPlugin) (msg msg' : plugin_Message)
    (failure : string) (success : gmap string value) :
  In (SendMessage msg') (forward p msg failure success) → msg' = msg.
Proof.
  unfold forward. destruct (msgHandler p) as [h|]; [destruct (h msg)|];
    cbn; intuition congruence.
Qed.

Lemma forward_sent (p : WebhookForwarderPlugin) (msg : plugin_Message)
    (failure : string) (success : gmap string value) :
  sent (forward p msg failure success) =
    match msgHandler p with Some _ => [msg] | None => [] end.
Proof.
  unfold forward. destruct (msgHandler p) as [h|]; [destruct (h msg)|];
    reflexivity.
Qed.

Lemma forward_responses (p : WebhookForwarderPlugin) (msg : plugin_Message)
    (failure : string) (success : gmap string value) :
  responses (forward p msg failure success) =
    match msgHandler p with
    | Some h =>
        match h msg with
        | Some err =>
            [(StatusInternalServerError,
              H [("error", VString failure); ("details", VString err)])]
        | None => [(StatusOK, success)]
        end
    | None =>
        [(StatusServiceUnavailable,
          H [("error", VString "Message handler not available")])]
    end.
Proof.
  unfold forward. destruct (msgHandler p) as [h|]; [destruct (h msg)|];
    reflexivity.
Qed.

Lemma forward_no_Call (p : WebhookForwarderPlugin) (msg : plugin_Message)
    (failure : string) (success : gmap string value) (h : handler) :
  ¬ In (Call h) (forward p msg failure success).
Proof.
  unfold forward. destruct (msgHandler p) as [h'|]; [destruct (h' msg)|];
    cbn; intuition congruence.
Qed.

(** ** The conversion of a float64 priority *)

Lemma int_bounds (a : goarch) : MinInt a < 0 ∧ 10 < MaxInt a.
Proof. destruct a; split; reflexivity. Qed.

(** [trunc] discards the fraction: it is the quotient, rounded toward zero,
    of the numerator of the float by its denominator. *)
Lemma trunc_toward_zero (s : bool) (m : positive) (e : Z) :
  trunc (S754_finite s m e) =
    Some (((if s then - Z.pos m else Z.pos m) * 2 ^ Z.max 0 e) ÷ 2 ^ Z.max 0 (- e)).
Proof.
  unfold trunc. f_equal.
  destruct (Z.le_gt_cases 0 e) as [He|He].
  - rewrite Z.shiftl_mul_pow2 by done.
    rewrite (Z.max_r 0 e), (Z.max_l 0 (- e)) by lia.
    rewrite Z.pow_0_r, Z.quot_1_r. destruct s; lia.
  - rewrite Z.shiftl_div_pow2 by lia.
    rewrite (Z.max_l 0 e), (Z.max_r 0 (- e)) by lia.
    rewrite Z.pow_0_r, Z.mul_1_r.
    assert (0 < 2 ^ (- e)) by (apply Z.pow_pos_nonneg; lia).
    destruct s.
    + rewrite Z.quot_opp_l by lia. rewrite Z.quot_div_nonneg by lia. done.
    + by rewrite Z.quot_div_nonneg by lia.
Qed.

Lemma out_of_range_invalid (a : goarch) (f : float64) :
  out_of_range a f ≤ 0 ∨ 10 < out_of_range a f.
Proof.
  pose proof (int_bounds a) as [Hmin Hmax].
  unfold out_of_range.
  destruct a; [lia | ..]; destruct f as [[]|[]| |[] ? ?]; lia.
Qed.

(** A truncated value in 1..10 is converted exactly. *)
Lemma int_of_float64_valid (a : goarch) (f : float64) (t : Z) :
  trunc f = Some t → 1 ≤ t ≤ 10 → int_of_float64 a f = t.
Proof.
  intros Ht Hr. pose proof (int_bounds a) as [Hmin Hmax].
  unfold int_of_float64. rewrite Ht.
  destruct (Z.leb_spec (MinInt a) t), (Z.leb_spec t (MaxInt a)); cbn; lia.
Qed.

(** Any other float is converted to an integer outside 1..10. *)
Lemma int_of_float64_invalid (a : goarch) (f : float64) :
  (∀ t, trunc f = Some t → t ≤ 0 ∨ 10 < t) →
  int_of_float64 a f ≤ 0 ∨ 10 < int_of_float64 a f.
Proof.
  intros Hr. unfold int_of_float64.
  destruct (trunc f) as [t|]; [|apply out_of_range_invalid].
  destruct ((MinInt a <=? t) && (t <=? MaxInt a));
    [by apply Hr | apply out_of_range_invalid].
Qed.

(** The default of [handleGenericWebhook] applied to a converted float. *)
Lemma priority_of_float64 (a : goarch) (f : float64) :
  (if (int_of_float64 a f <=? 0) || (int_of_float64 a f >? 10)
   then 5 else int_of_float64 a f) =
  match trunc f with
  | Some t => if (t <=? 0) || (t >? 10) then 5 else t
  | None => 5
  end.
Proof.
  destruct (trunc f) as [t|] eqn:Ht.
  - destruct (Z.leb_spec t 0) as [H0|H0]; cbn [orb].
    + destruct (int_of_float64_invalid a f) as [Hi|Hi].
      { intros t' Ht'. rewrite Ht in Ht'. injection Ht' as <-. lia. }
      * apply Z.leb_le in Hi. by rewrite Hi.
      * apply Z.gtb_lt in Hi. rewrite Hi. by rewrite orb_true_r.
    + destruct (Z.gtb_spec t 10) as [H1|H1].
      * destruct (int_of_float64_invalid a f) as [Hi|Hi].
        { intros t' Ht'. rewrite Ht in Ht'. injection Ht' as <-. lia. }
        -- apply Z.leb_le in Hi. by rewrite Hi.
        -- apply Z.gtb_lt in Hi. rewrite Hi. by rewrite orb_true_r.
      * rewrite (int_of_float64_valid a f t Ht) by lia.
        destruct (Z.leb_spec t 0), (Z.gtb_spec t 10); cbn; lia.
  - destruct (int_of_float64_invalid a f) as [Hi|Hi].
    { intros t' Ht'. congruence. }
    + apply Z.leb_le in Hi. by rewrite Hi.
    + apply Z.gtb_lt in Hi. rewrite Hi. by rewrite orb_true_r.
Qed.

(** ** The Content-Type of the request *)

(** Not every Content-Type that is present and differs from
    "application/json" is rejected: a request that carries the header with an
    empty value, for which [GetHeader] gives [""] as it does for no header,
    is decoded and, here, forwarded. *)
Lemma content_type_counterexample :
  ¬ (∀ (a : goarch) (p : WebhookForwarderPlugin) (c : Context)
       (v : string) (vs : list string),
       Header c !! "Content-Type" = Some (v :: vs) →
       v ≠ "application/json" →
       (∃ obj, In (JSON StatusBadRequest obj) (handleWebhookMessage a p c))
       ∧ ¬ In ShouldBindJSON (handleWebhookMessage a p c)).
Proof.
  intros Hclaim.
  destruct (Hclaim amd64 mock_ok (post [""] (BindOk (Some priority_7))) "" [])
    as [_ Hno]; [reflexivity | discriminate |].
  apply Hno. left. reflexivity.
Qed.

(** C8, as the code has it.  A request whose Content-Type has a first value
    that is neither empty nor exactly "application/json" is answered 400 and
    its body is not decoded.  A request without Content-Type, or whose
    Content-Type is present with an empty value, goes on to the decoding of
    the body. *)
Theorem content_type_check
    (a : goarch) (p : WebhookForwarderPlugin) (c : Context) :
  (∀ v vs, Header c !! "Content-Type" = Some (v :: vs) →
     v ≠ "" → v ≠ "application/json" →
     handleWebhookMessage a p c =
       [JSON StatusBadRequest
          (H [("error", VString "Content-Type must be application/json")])]) ∧
  (Header c !! "Content-Type" = None
   ∨ Header c !! "Content-Type" = Some []
   ∨ (∃ vs, Header c !! "Content-Type" = Some ("" :: vs)) →
     ∃ tr, handleWebhookMessage a p c = ShouldBindJSON :: tr).
Proof.
  split.
  - intros v vs Hh Hne Hnj. apply content_type_rejected.
    + unfold GetHeader. by rewrite Hh.
    + unfold GetHeader. by rewrite Hh.
  - intros Habs. rewrite content_type_accepted; [by eexists|].
    right. unfold GetHeader.
    destruct Habs as [-> | [-> | [vs ->]]]; reflexivity.
Qed.

Lemma content_type_check_witness :
  handleWebhookMessage amd64 mock_ok
    (post ["application/json; charset=utf-8"] (BindOk (Some priority_7))) =
    [JSON StatusBadRequest
       (H [("error", VString "Content-Type must be application/json")])]
  ∧ ∃ tr, handleWebhookMessage amd64 mock_ok (post [] (BindOk (Some priority_7)))
          = ShouldBindJSON :: tr.
Proof.
  split.
  - apply (proj1 (content_type_check amd64 mock_ok
                    (post ["application/json; charset=utf-8"]
                       (BindOk (Some priority_7))))
             "application/json; charset=utf-8" []).
    + reflexivity.
    + discriminate.
    + discriminate.
  - apply (content_type_check amd64 mock_ok (post [] (BindOk (Some priority_7)))).
    left. reflexivity.
Defined.


(** ** The generic path: the required message *)

(** C2. On the generic path, a payload whose "message" is a non-empty string
    is not rejected: no 400 is written, every notification handed to the
    message handler has that string as its body, and a configured handler
    receives exactly one.  A payload without "message", or whose "message" is
    not a string, gets the one response 400 "Message field is required" and
    nothing is sent. *)
Theorem handleGenericWebhook_message
    (a : goarch) (p : WebhookForwarderPlugin) (rawBody : gmap string value) :
  (∀ s, rawBody !! "message" = Some (VString s) → s ≠ "" →
     (∀ obj, ¬ In (JSON StatusBadRequest obj) (handleGenericWebhook a p rawBody)) ∧
     (∀ msg, In (SendMessage msg) (handleGenericWebhook a p rawBody) →
             Message msg = s) ∧
     (is_Some (msgHandler p) →
        ∃ msg, sent (handleGenericWebhook a p rawBody) = [msg] ∧ Message msg = s)) ∧
  (rawBody !! "message" = None
   ∨ (∃ v, rawBody !! "message" = Some v ∧ ∀ s, v ≠ VString s) →
     handleGenericWebhook a p rawBody =
       [JSON StatusBadRequest (H [("error", VString "Message field is required")])]
     ∧ sent (handleGenericWebhook a p rawBody) = []).
Proof.
  rewrite handleGenericWebhook_forward. cbv zeta. split.
  - intros s Hs Hne. rewrite (string_field_string _ _ _ Hs).
    apply String.eqb_neq in Hne. rewrite Hne. split_and!.
    + intros obj Hin. unfold forward in Hin.
      destruct (msgHandler p) as [h|];
        [match type of Hin with context [h ?m] => destruct (h m) end|];
        cbn in Hin; intuition discriminate.
    + intros msg Hin. by rewrite (forward_SendMessage _ _ _ _ _ Hin).
    + intros [h Hh]. eexists. rewrite forward_sent, Hh. done.
  - intros Hno. rewrite string_field_other; [done|].
    intros s Hs. destruct Hno as [Hno | (v & Hv & Hno)].
    + congruence.
    + rewrite Hv in Hs. injection Hs as ->. by destruct (Hno s).
Qed.

Lemma handleGenericWebhook_message_witness :
  (∃ msg, sent (handleGenericWebhook amd64 mock_ok
                  (H [("message", VString "Test Message")])) = [msg]
          ∧ Message msg = "Test Message")
  ∧ handleGenericWebhook amd64 mock_ok (H [("message", num 42)]) =
      [JSON StatusBadRequest (H [("error", VString "Message field is required")])].
Proof.
  split.
  - apply (handleGenericWebhook_message amd64 mock_ok
             (H [("message", VString "Test Message")])).
    + reflexivity.
    + discriminate.
    + exists (fun _ => None). reflexivity.
  - apply (handleGenericWebhook_message amd64 mock_ok (H [("message", num 42)])).
    right. exists (num 42). split; [reflexivity | discriminate].
Defined.

(** C9. On the generic path a "message" that is the empty string counts as no
    message: the response is the 400 "Message field is required", the trace
    is the one of the same payload without the key, and nothing is sent. *)
Theorem handleGenericWebhook_empty_message
    (a : goarch) (p : WebhookForwarderPlugin) (rawBody : gmap string value) :
  rawBody !! "message" = Some (VString "") →
  handleGenericWebhook a p rawBody =
    [JSON StatusBadRequest (H [("error", VString "Message field is required")])]
  ∧ handleGenericWebhook a p rawBody =
      handleGenericWebhook a p (delete "message" rawBody)
  ∧ ∀ msg, ¬ In (SendMessage msg) (handleGenericWebhook a p rawBody).
Proof.
  intros Hm.
  assert (handleGenericWebhook a p rawBody =
    [JSON StatusBadRequest (H [("error", VString "Message field is required")])])
    as Heq.
  { rewrite handleGenericWebhook_forward. cbv zeta.
    by rewrite (string_field_string _ _ _ Hm). }
  split_and!.
  - done.
  - rewrite Heq, handleGenericWebhook_forward. cbv zeta.
    rewrite (string_field_other (delete "message" rawBody)); [done|].
    intros s. by rewrite lookup_delete_eq.
  - intros msg. rewrite Heq. cbn. intuition discriminate.
Qed.

Lemma handleGenericWebhook_empty_message_witness :
  handleGenericWebhook arm64 mock_ok
    (H [("title", VString "t"); ("message", VString "")]) =
    [JSON StatusBadRequest (H [("error", VString "Message field is required")])].
Proof.
  apply (handleGenericWebhook_empty_message arm64 mock_ok
           (H [("title", VString "t"); ("message", VString "")])).
  reflexivity.
Defined.

(** ** Priorities *)

(** Whatever the payload, [handleGrafanaWebhook] hands exactly one
    notification to a configured message handler. *)
Lemma handleGrafanaWebhook_sends_one
    (p : WebhookForwarderPlugin) (rawBody : gmap string value) :
  is_Some (msgHandler p) → ∃ msg, sent (handleGrafanaWebhook p rawBody) = [msg].
Proof.
  intros [h Hh].
  destruct (handleGrafanaWebhook_forward rawBody) as (msg & _ & _ & _ & _ & Htr).
  exists msg. by rewrite Htr, forward_sent, Hh.
Qed.

(** C3. On the Grafana path the priority of the notification sent is 8 when
    "status" is the string "firing" or "state" is the string "alerting";
    failing that, 3 when "status" is "resolved" or "state" is "ok"; failing
    both, 5.  The first rule is tried before the second, so "resolved" with
    "alerting" gives 8. *)
Theorem handleGrafanaWebhook_priority
    (p : WebhookForwarderPlugin) (rawBody : gmap string value)
    (msg : plugin_Message) :
  In (SendMessage msg) (handleGrafanaWebhook p rawBody) →
  (is_string rawBody "status" "firing" ∨ is_string rawBody "state" "alerting" →
     Priority msg = 8) ∧
  (¬ (is_string rawBody "status" "firing" ∨ is_string rawBody "state" "alerting") →
   is_string rawBody "status" "resolved" ∨ is_string rawBody "state" "ok" →
     Priority msg = 3) ∧
  (¬ (is_string rawBody "status" "firing" ∨ is_string rawBody "state" "alerting") →
   ¬ (is_string rawBody "status" "resolved" ∨ is_string rawBody "state" "ok") →
     Priority msg = 5).
Proof.
  intros Hin.
  destruct (handleGrafanaWebhook_forward rawBody)
    as (msg0 & _ & _ & Hprio & _ & Htr).
  cbv zeta in Hprio. rewrite Htr in Hin.
  apply forward_SendMessage in Hin as ->. rewrite Hprio.
  assert (∀ k s, s ≠ "" →
            String.eqb (string_field rawBody k) s = true ↔ is_string rawBody k s)
    as Heqb.
  { intros k s Hs. rewrite String.eqb_eq. split.
    - intros E. rewrite <- E. apply string_field_nonempty. congruence.
    - apply string_field_string. }
  assert (String.eqb (string_field rawBody "status") "firing"
          || String.eqb (string_field rawBody "state") "alerting" = true
          ↔ is_string rawBody "status" "firing"
            ∨ is_string rawBody "state" "alerting") as Hf.
  { rewrite orb_true_iff, !Heqb by done. reflexivity. }
  assert (String.eqb (string_field rawBody "status") "resolved"
          || String.eqb (string_field rawBody "state") "ok" = true
          ↔ is_string rawBody "status" "resolved"
            ∨ is_string rawBody "state" "ok") as Hr.
  { rewrite orb_true_iff, !Heqb by done. reflexivity. }
  destruct (_ || _) in Hf |- *; destruct (_ || _) in Hr |- *;
    split_and!; intros; try reflexivity; intuition congruence.
Qed.

Lemma handleGrafanaWebhook_priority_witness :
  In (SendMessage resolved_alerting_msg)
     (handleGrafanaWebhook mock_ok resolved_alerting)
  ∧ Priority resolved_alerting_msg = 8.
Proof.
  assert (In (SendMessage resolved_alerting_msg)
             (handleGrafanaWebhook mock_ok resolved_alerting)) as Hin.
  { left. reflexivity. }
  split; [exact Hin|].
  apply (handleGrafanaWebhook_priority mock_ok resolved_alerting
           resolved_alerting_msg Hin).
  right. reflexivity.
Defined.

(** C4. On the generic path the priority of the notification sent is read
    from "priority": a float64 is truncated toward zero, and the result [t]
    is kept when it is in 1..10 and replaced by 5 when [t ≤ 0] or [t > 10];
    the priority is 5 when the key is absent or holds something that is not
    a number.  (A Go int, which JSON decoding never yields, is kept or
    replaced in the same way; a float64 that is an infinity or a NaN, which
    JSON decoding never yields either, gives 5.) *)
Theorem handleGenericWebhook_priority
    (a : goarch) (p : WebhookForwarderPlugin) (rawBody : gmap string value)
    (msg : plugin_Message) :
  In (SendMessage msg) (handleGenericWebhook a p rawBody) →
  Priority msg =
    match rawBody !! "priority" with
    | Some (VFloat64 f) =>
        match trunc f with
        | Some t => if (t <=? 0) || (t >? 10) then 5 else t
        | None => 5
        end
    | Some (VInt n) => if (n <=? 0) || (n >? 10) then 5 else n
    | Some _ | None => 5
    end.
Proof.
  intros Hin. rewrite handleGenericWebhook_forward in Hin. cbv zeta in Hin.
  destruct (String.eqb (string_field rawBody "message") "").
  { cbn in Hin. intuition discriminate. }
  apply forward_SendMessage in Hin as ->. cbn [Priority].
  unfold index. destruct (rawBody !! "priority") as [v|]; [|reflexivity].
  destruct v; try reflexivity. apply priority_of_float64.
Qed.

Lemma handleGenericWebhook_priority_witness :
  In (SendMessage priority_7_msg) (handleGenericWebhook amd64 mock_ok priority_7)
  ∧ Priority priority_7_msg = 7.
Proof.
  assert (In (SendMessage priority_7_msg)
             (handleGenericWebhook amd64 mock_ok priority_7)) as Hin.
  { left. reflexivity. }
  split; [exact Hin|].
  exact (handleGenericWebhook_priority amd64 mock_ok priority_7
           priority_7_msg Hin).
Defined.

(** The values of the specification, on every target. *)
Example generic_priority_values (a : goarch) :
  map (fun v => Priority <$> sent (handleGenericWebhook a mock_ok
                                     (H [("message", VString "m"); ("priority", v)])))
      [num 7; num 1; num 10; num 15; num 0; VString "5"; num (-3);
       VFloat64 (binary_normalize 53 1024 109 (-1) false);    (* 54.5 *)
       VFloat64 (binary_normalize 53 1024 21 (-1) false);     (* 10.5 *)
       VFloat64 (binary_normalize 53 1024 1 (-1) false);      (* 0.5 *)
       VFloat64 (binary_normalize 53 1024 1 1000 false);      (* 2^1000 *)
       VFloat64 (binary_normalize 53 1024 1 1000 true)]       (* -2^1000 *)
  = [[7]; [1]; [10]; [5]; [5]; [5]; [5]; [5]; [10]; [5]; [5]; [5]]
  ∧ Priority <$> sent (handleGenericWebhook a mock_ok (H [("message", VString "m")]))
    = [5].
Proof. destruct a; split; reflexivity. Qed.

(** ** From the endpoint to the two handlers *)

Lemma handleGenericWebhook_no_Call (a : goarch) (p : WebhookForwarderPlugin)
    (rawBody : gmap string value) (h : handler) :
  ¬ In (Call h) (handleGenericWebhook a p rawBody).
Proof.
  rewrite handleGenericWebhook_forward. cbv zeta.
  destruct (String.eqb _ ""); [|apply forward_no_Call].
  cbn. intuition discriminate.
Qed.

Lemma handleGrafanaWebhook_no_Call (p : WebhookForwarderPlugin)
    (rawBody : gmap string value) (h : handler) :
  ¬ In (Call h) (handleGrafanaWebhook p rawBody).
Proof.
  destruct (handleGrafanaWebhook_forward rawBody) as (msg & _ & _ & _ & _ & Htr).
  rewrite Htr. apply forward_no_Call.
Qed.

(** A notification is only ever sent by one of the two handlers, on the
    payload the body was decoded to, and the [Call] in the trace tells
    which. *)
Lemma handleWebhookMessage_SendMessage (a : goarch) (p : WebhookForwarderPlugin)
    (c : Context) (msg : plugin_Message) :
  In (SendMessage msg) (handleWebhookMessage a p c) →
  ∃ rawBody, bindJSON c = BindOk (Some rawBody) ∧
    ((is_Some (rawBody !! "alerts")
      ∧ ¬ In (Call HandleGeneric) (handleWebhookMessage a p c)
      ∧ In (SendMessage msg) (handleGrafanaWebhook p rawBody))
     ∨ (rawBody !! "alerts" = None
        ∧ ¬ In (Call HandleGrafana) (handleWebhookMessage a p c)
        ∧ In (SendMessage msg) (handleGenericWebhook a p rawBody))).
Proof.
  unfold handleWebhookMessage.
  destruct (negb _ && negb _); [cbn; intuition discriminate|].
  destruct (bindJSON c) as [err|[rawBody|]];
    [cbn; intuition discriminate | | cbn; intuition discriminate].
  intros Hin. exists rawBody. split; [done|].
  destruct (has_key rawBody "alerts") eqn:Hk.
  - left. apply has_key_is_Some in Hk. split_and!; [done | |].
    + intros [?|[?|Hc]]; try discriminate.
      by apply handleGrafanaWebhook_no_Call in Hc.
    + destruct Hin as [?|[?|Hin]]; [discriminate..|done].
  - right. apply has_key_None in Hk. split_and!; [done | |].
    + intros [?|[?|Hc]]; try discriminate.
      by apply handleGenericWebhook_no_Call in Hc.
    + destruct Hin as [?|[?|Hin]]; [discriminate..|done].
Qed.

(** ** The entry "source" of the metadata *)

(** The metadata of a notification of the generic path can have a "source"
    entry: the payload
    [{"message": "m", "extras": {"source": "grafana"}}] is delivered with its
    "extras" as they are. *)
Lemma source_entry_generic_counterexample :
  ¬ (∀ (a : goarch) (p : WebhookForwarderPlugin) (c : Context)
       (msg : plugin_Message),
       In (Call HandleGeneric) (handleWebhookMessage a p c) →
       In (SendMessage msg) (handleWebhookMessage a p c) →
       ∀ extras, Extras msg = Some extras → extras !! "source" = None).
Proof.
  intros Hclaim.
  specialize (Hclaim amd64 mock_ok
                (post_json [("message", VString "m");
                            ("extras", VMap (H [("source", VString "grafana")]))])
                {| Title := "Webhook Message"; Message := "m"; Priority := 5;
                   Extras := Some (H [("source", VString "grafana")]) |}).
  assert (H [("source", VString "grafana")] !! "source" = None) as Hsrc.
  { apply Hclaim.
    - right. left. reflexivity.
    - right. right. left. reflexivity.
    - reflexivity. }
  discriminate Hsrc.
Qed.

(** C5, as the code has it.  A notification sent for a payload handed to the
    Grafana handler has the entry "source" = "grafana" in its metadata.  A
    notification sent for a payload handed to the generic handler has as
    metadata the object under "extras" of the payload, as it is, and the nil
    map when "extras" is absent or not an object: the generic handler writes
    no entry of its own, and a "source" entry of the payload's "extras" is
    delivered. *)
Theorem source_entry
    (a : goarch) (p : WebhookForwarderPlugin) (c : Context)
    (msg : plugin_Message) :
  In (SendMessage msg) (handleWebhookMessage a p c) →
  (In (Call HandleGrafana) (handleWebhookMessage a p c) →
     ∃ extras, Extras msg = Some extras
               ∧ extras !! "source" = Some (VString "grafana")) ∧
  (In (Call HandleGeneric) (handleWebhookMessage a p c) →
     ∀ rawBody, bindJSON c = BindOk (Some rawBody) →
       Extras msg = match rawBody !! "extras" with
                    | Some (VMap extras) => Some extras
                    | _ => None
                    end).
Proof.
  intros Hin.
  destruct (handleWebhookMessage_SendMessage a p c msg Hin)
    as (rawBody & Hbind & [(Hk & Hno & Hsend) | (Hk & Hno & Hsend)]).
  - split; [|done]. intros _.
    destruct (handleGrafanaWebhook_forward rawBody)
      as (msg0 & _ & _ & _ & Hsrc & Htr).
    rewrite Htr in Hsend. by apply forward_SendMessage in Hsend as ->.
  - split; [done|]. intros _ rawBody' Hbind'.
    rewrite Hbind in Hbind'. injection Hbind' as <-.
    rewrite handleGenericWebhook_forward in Hsend. cbv zeta in Hsend.
    destruct (String.eqb _ ""); [cbn in Hsend; intuition discriminate|].
    apply forward_SendMessage in Hsend as ->. cbn [Extras].
    unfold index. destruct (rawBody !! "extras") as [[]|]; reflexivity.
Qed.

Lemma source_entry_witness :
  In (SendMessage resolved_alerting_msg)
     (handleWebhookMessage amd64 mock_ok
        (post ["application/json"] (BindOk (Some resolved_alerting))))
  ∧ ∃ extras, Extras resolved_alerting_msg = Some extras
              ∧ extras !! "source" = Some (VString "grafana").
Proof.
  assert (In (SendMessage resolved_alerting_msg)
            (handleWebhookMessage amd64 mock_ok
               (post ["application/json"] (BindOk (Some resolved_alerting)))))
    as Hin.
  { right. right. left. reflexivity. }
  split; [exact Hin|].
  apply (source_entry amd64 mock_ok
           (post ["application/json"] (BindOk (Some resolved_alerting)))
           resolved_alerting_msg Hin).
  right. left. reflexivity.
Defined.

(** ** The invariant of what is sent *)

(** C6. On either path, a notification handed to the message handler has a
    priority in 1..10 and a body that is not the empty string. *)
Theorem sent_notification_valid
    (a : goarch) (p : WebhookForwarderPlugin) (c : Context)
    (msg : plugin_Message) :
  In (SendMessage msg) (handleWebhookMessage a p c) →
  1 ≤ Priority msg ≤ 10 ∧ Message msg ≠ "".
Proof.
  intros Hin.
  destruct (handleWebhookMessage_SendMessage a p c msg Hin)
    as (rawBody & _ & [(_ & _ & Hsend) | (_ & _ & Hsend)]).
  - destruct (handleGrafanaWebhook_forward rawBody)
      as (msg0 & _ & Hbody & Hprio & _ & Htr).
    cbv zeta in Hbody, Hprio.
    rewrite Htr in Hsend. apply forward_SendMessage in Hsend as ->.
    rewrite Hprio, Hbody. split.
    + destruct (_ || _); [lia|]. destruct (_ || _); lia.
    + destruct (String.eqb _ "") eqn:E; [discriminate|].
      by apply String.eqb_neq.
  - rewrite handleGenericWebhook_forward in Hsend. cbv zeta in Hsend.
    destruct (String.eqb _ "") eqn:E; [cbn in Hsend; intuition discriminate|].
    apply forward_SendMessage in Hsend as ->. cbn [Priority Message]. split.
    + match goal with |- context [(?x <=? 0) || _] =>
        destruct (Z.leb_spec x 0), (Z.gtb_spec x 10) end; cbn [orb]; lia.
    + by apply String.eqb_neq.
Qed.

Lemma sent_notification_valid_witness :
  In (SendMessage priority_7_msg)
     (handleWebhookMessage arm mock_fail
        (post [] (BindOk (Some priority_7))))
  ∧ 1 ≤ Priority priority_7_msg ≤ 10 ∧ Message priority_7_msg ≠ "".
Proof.
  assert (In (SendMessage priority_7_msg)
            (handleWebhookMessage arm mock_fail
               (post [] (BindOk (Some priority_7))))) as Hin.
  { right. right. left. reflexivity. }
  split; [exact Hin|].
  exact (sent_notification_valid arm mock_fail
           (post [] (BindOk (Some priority_7))) priority_7_msg Hin).
Defined.

(** ** The delivery step *)

Lemma forward_delivery_outcome (p : WebhookForwarderPlugin) (msg : plugin_Message)
    (failure : string) (success : gmap string value) :
  success !! "success" = Some (VBool true) →
  delivery_outcome p (forward p msg failure success) (success !! "type").
Proof.
  intros Hs. unfold delivery_outcome, forward.
  destruct (msgHandler p) as [h|]; [|by eexists].
  exists msg. destruct (h msg) as [err|]; eexists; split_and!; done.
Qed.

(** Without a message handler the generic handler does not always answer 503:
    the payload [{"title": "Title Only"}] fails the validation, which comes
    first, and is answered 400. *)
Lemma sink_unavailable_counterexample :
  ¬ (∀ (a : goarch) (p : WebhookForwarderPlugin) (rawBody : gmap string value),
       msgHandler p = None →
       ∃ obj, In (JSON StatusServiceUnavailable obj)
                 (handleGenericWebhook a p rawBody)).
Proof.
  intros Hclaim.
  destruct (Hclaim amd64 no_handler (H [("title", VString "Title Only")]))
    as [obj Hin]; [reflexivity|].
  destruct Hin as [Hin|[]]. discriminate Hin.
Qed.

(** C7, as the code has it.  The Grafana handler, for every payload, and the
    generic handler, for every payload that passes its validation (a
    "message" that is a non-empty string), end in one of three ways: without
    a message handler, the response 503 and no call of [SendMessage]; when
    [SendMessage] returns an error, the response 500 with the text of the
    error under "details"; when it succeeds, the response 200 with "success"
    true, and with "type" = "grafana" on the Grafana path only. *)
Theorem delivery_outcomes
    (a : goarch) (p : WebhookForwarderPlugin) (rawBody : gmap string value) :
  delivery_outcome p (handleGrafanaWebhook p rawBody) (Some (VString "grafana")) ∧
  ((∃ s, rawBody !! "message" = Some (VString s) ∧ s ≠ "") →
     delivery_outcome p (handleGenericWebhook a p rawBody) None).
Proof.
  split.
  - destruct (handleGrafanaWebhook_forward rawBody) as (msg & _ & _ & _ & _ & Htr).
    rewrite Htr. by apply forward_delivery_outcome.
  - intros (s & Hs & Hne). rewrite handleGenericWebhook_forward. cbv zeta.
    rewrite (string_field_string _ _ _ Hs).
    apply String.eqb_neq in Hne. rewrite Hne.
    by apply forward_delivery_outcome.
Qed.

Lemma delivery_outcomes_witness :
  delivery_outcome mock_fail (handleGenericWebhook amd64 mock_fail priority_7) None.
Proof.
  apply (delivery_outcomes amd64 mock_fail priority_7).
  exists "Test Message". split; [reflexivity | discriminate].
Defined.


(** ** What the Grafana notification depends on *)

Lemma index_agree (m1 m2 : gmap string value) (k : string) :
  m1 !! k = m2 !! k → index m1 k = index m2 k.
Proof. unfold index. by intros ->. Qed.

Lemma handleGrafanaWebhook_agree (p : WebhookForwarderPlugin)
    (m1 m2 : gmap string value) :
  (∀ k, In k grafana_keys → m1 !! k = m2 !! k) →
  handleGrafanaWebhook p m1 = handleGrafanaWebhook p m2.
Proof.
  intros Hag. cbv beta delta [handleGrafanaWebhook].
  rewrite (index_agree m1 m2 "title"), (index_agree m1 m2 "message"),
    (index_agree m1 m2 "status"), (index_agree m1 m2 "state"),
    (index_agree m1 m2 "externalURL"), (index_agree m1 m2 "dashboardURL"),
    (index_agree m1 m2 "silenceURL");
    try reflexivity; apply Hag; cbn; tauto.
Qed.

(** C10. The notification the Grafana handler sends depends on the payload
    through the seven keys "title", "message", "status", "state",
    "externalURL", "dashboardURL" and "silenceURL" only: two payloads with
    the same values (or the same absence) at these keys give the same
    notification, whatever they hold under "alerts" or any other key, and
    whatever the message handlers answer. *)
Theorem grafana_notification_depends_on_seven_keys
    (p1 p2 : WebhookForwarderPlugin) (m1 m2 : gmap string value) :
  (∀ k, In k grafana_keys → m1 !! k = m2 !! k) →
  is_Some (msgHandler p1) → is_Some (msgHandler p2) →
  ∃ msg, sent (handleGrafanaWebhook p1 m1) = [msg]
         ∧ sent (handleGrafanaWebhook p2 m2) = [msg].
Proof.
  intros Hag [h1 Hh1] [h2 Hh2].
  rewrite (handleGrafanaWebhook_agree p1 m1 m2 Hag).
  destruct (handleGrafanaWebhook_forward m2) as (msg & _ & _ & _ & _ & Htr).
  exists msg. by rewrite !Htr, !forward_sent, Hh1, Hh2.
Qed.

Lemma grafana_notification_depends_on_seven_keys_witness :
  ∃ msg, sent (handleGrafanaWebhook mock_ok resolved_alerting) = [msg]
         ∧ sent (handleGrafanaWebhook mock_fail resolved_alerting') = [msg].
Proof.
  apply (grafana_notification_depends_on_seven_keys
           mock_ok mock_fail resolved_alerting resolved_alerting').
  - intros k Hk. cbn in Hk.
    destruct Hk as [<-|[<-|[<-|[<-|[<-|[<-|[<-|[]]]]]]]]; reflexivity.
  - exists (fun _ => None). reflexivity.
  - exists (fun _ => Some "assert.AnError general error for testing"). reflexivity.
Defined.

(** Every request is answered, and answered once. *)
Lemma handleWebhookMessage_one_response (a : goarch) (p : WebhookForwarderPlugin)
    (c : Context) :
  ∃ code obj, responses (handleWebhookMessage a p c) = [(code, obj)].
Proof.
  unfold handleWebhookMessage.
  destruct (negb _ && negb _); [by eexists _, _|].
  destruct (bindJSON c) as [err|[rawBody|]]; [by eexists _, _ | | by eexists _, _].
  destruct (has_key rawBody "alerts").
  - destruct (handleGrafanaWebhook_forward rawBody) as (msg & _ & _ & _ & _ & Htr).
    change (∃ code obj, responses (handleGrafanaWebhook p rawBody) = [(code, obj)]).
    rewrite Htr, forward_responses.
    destruct (msgHandler p) as [h|]; [destruct (h msg)|]; by eexists _, _.
  - change (∃ code obj, responses (handleGenericWebhook a p rawBody) = [(code, obj)]).
    rewrite handleGenericWebhook_forward. cbv zeta.
    destruct (String.eqb _ ""); [by eexists _, _|].
    rewrite forward_responses.
    destruct (msgHandler p) as [h|];
      [match goal with |- context [h ?m] => destruct (h m) end|]; by eexists _, _.
Qed.

(** ** The title and the body of a notification *)

(** X1. The title of a Grafana notification is the "title" of the payload when
    that is a non-empty string; otherwise "Grafana Alert: " followed by the
    status when "status" is a non-empty string; otherwise "Grafana Alert". *)
Theorem handleGrafanaWebhook_title
    (p : WebhookForwarderPlugin) (rawBody : gmap string value)
    (msg : plugin_Message) :
  In (SendMessage msg) (handleGrafanaWebhook p rawBody) →
  (∀ t, is_string rawBody "title" t → t ≠ "" → Title msg = t) ∧
  ((∀ t, is_string rawBody "title" t → t = "") →
     (∀ s, is_string rawBody "status" s → s ≠ "" →
        Title msg = "Grafana Alert: " +:+ s) ∧
     ((∀ s, is_string rawBody "status" s → s = "") →
        Title msg = "Grafana Alert")).
Proof.
  intros Hin.
  destruct (handleGrafanaWebhook_forward rawBody)
    as (msg0 & Htitle & _ & _ & _ & Htr).
  cbv zeta in Htitle. rewrite Htr in Hin.
  apply forward_SendMessage in Hin as ->. rewrite Htitle. split.
  - intros t Ht Hne. rewrite (string_field_string _ _ _ Ht).
    apply String.eqb_neq in Hne. by rewrite Hne.
  - intros Hno.
    assert (string_field rawBody "title" = "") as ->.
    { destruct (String.eqb_spec (string_field rawBody "title") "") as [E|E];
        [done|]. apply string_field_nonempty in E. by apply Hno in E. }
    cbn [String.eqb]. split.
    + intros s Hs Hne. rewrite (string_field_string _ _ _ Hs).
      apply String.eqb_neq in Hne. by rewrite Hne.
    + intros Hnos.
      assert (string_field rawBody "status" = "") as ->; [|done].
      destruct (String.eqb_spec (string_field rawBody "status") "") as [E|E];
        [done|]. apply string_field_nonempty in E. by apply Hnos in E.
Qed.

Lemma handleGrafanaWebhook_title_witness :
  In (SendMessage resolved_alerting_msg)
     (handleGrafanaWebhook mock_ok resolved_alerting)
  ∧ Title resolved_alerting_msg = "Grafana Alert: resolved".
Proof.
  assert (In (SendMessage resolved_alerting_msg)
             (handleGrafanaWebhook mock_ok resolved_alerting)) as Hin.
  { left. reflexivity. }
  split; [exact Hin|].
  apply (proj2 (handleGrafanaWebhook_title mock_ok resolved_alerting
                  resolved_alerting_msg Hin)).
  - intros t Ht. discriminate Ht.
  - reflexivity.
  - discriminate.
Defined.

(** X2. The Grafana handler never rejects a payload for its message: it
    writes no 400, and the body of the notification it sends is the "message"
    of the payload when that is a non-empty string and the text
    "Alert notification from Grafana" in every other case (no "message", a
    "message" that is not a string, an empty one). *)
Theorem handleGrafanaWebhook_body
    (p : WebhookForwarderPlugin) (rawBody : gmap string value) :
  (∀ obj, ¬ In (JSON StatusBadRequest obj) (handleGrafanaWebhook p rawBody)) ∧
  ∀ msg, In (SendMessage msg) (handleGrafanaWebhook p rawBody) →
    (∀ s, is_string rawBody "message" s → s ≠ "" → Message msg = s) ∧
    ((∀ s, is_string rawBody "message" s → s = "") →
       Message msg = "Alert notification from Grafana").
Proof.
  destruct (handleGrafanaWebhook_forward rawBody)
    as (msg0 & _ & Hbody & _ & _ & Htr).
  cbv zeta in Hbody. rewrite Htr. split.
  - intros obj. unfold forward.
    destruct (msgHandler p) as [h|]; [destruct (h msg0)|];
      cbn; intuition discriminate.
  - intros msg Hin. apply forward_SendMessage in Hin as ->. rewrite Hbody.
    split.
    + intros s Hs Hne. rewrite (string_field_string _ _ _ Hs).
      apply String.eqb_neq in Hne. by rewrite Hne.
    + intros Hno.
      assert (string_field rawBody "message" = "") as ->; [|done].
      destruct (String.eqb_spec (string_field rawBody "message") "") as [E|E];
        [done|]. apply string_field_nonempty in E. by apply Hno in E.
Qed.

Lemma handleGrafanaWebhook_body_witness :
  In (SendMessage resolved_alerting_msg)
     (handleGrafanaWebhook mock_ok resolved_alerting)
  ∧ Message resolved_alerting_msg = "Alert notification from Grafana".
Proof.
  assert (In (SendMessage resolved_alerting_msg)
             (handleGrafanaWebhook mock_ok resolved_alerting)) as Hin.
  { left. reflexivity. }
  split; [exact Hin|].
  apply (proj2 (handleGrafanaWebhook_body mock_ok resolved_alerting)
           resolved_alerting_msg Hin).
  intros s Hs. discriminate Hs.
Defined.

(** ** The metadata of a Grafana notification *)

(** What a conditional write leaves under its own key. *)
Lemma lookup_insert_if_eq (c : bool) (k : string) (v : value)
    (extras : gmap string value) :
  (if c then <[k := v]> extras else extras) !! k =
    if c then Some v else extras !! k.
Proof. destruct c; [apply lookup_insert_eq | done]. Qed.

Lemma lookup_insert_url_eq (o : option string) (k : string)
    (extras : gmap string value) :
  match o with
  | Some u => if negb (String.eqb u "") then <[k := VString u]> extras else extras
  | None => extras
  end !! k =
  match o with
  | Some u => if negb (String.eqb u "") then Some (VString u) else extras !! k
  | None => extras !! k
  end.
Proof. destruct o; [apply lookup_insert_if_eq | done]. Qed.

(** The entry of a copied key, in terms of the string extracted for it. *)
Lemma copied_entry (o : option string) :
  match o with
  | Some u => if negb (String.eqb u "") then Some (VString u) else None
  | None => None
  end =
  if String.eqb (default "" o) "" then None else Some (VString (default "" o)).
Proof. destruct o as [u|]; [|done]. cbn. by destruct (String.eqb u ""). Qed.

(** X3. The metadata of a Grafana notification is never nil and has no other
    entries than these: "source" = "grafana", always; and for each of
    "status", "state", "externalURL", "dashboardURL" and "silenceURL", the
    string the payload holds under that key, copied as it is, when it is a
    non-empty string.  No other key of the payload (not "alerts", not
    "title") reaches the metadata. *)
(** The notification in a trace that sends one and then answers. *)
Lemma In_SendMessage_then_JSON (o : option string) (msg M : plugin_Message)
    (failure : string → gmap string value) (success : gmap string value) :
  In (SendMessage msg)
     match o with
     | Some err => [SendMessage M; JSON StatusInternalServerError (failure err)]
     | None => [SendMessage M; JSON StatusOK success]
     end →
  msg = M.
Proof. destruct o; intros [E|[E|[]]]; congruence. Qed.

(** The struct [grafanaMsg] after the four assignments. *)
Lemma grafanaMsg_fields (t m s st : option string) :
  let g := GrafanaWebhook_zero in
  let g := match t with Some x => set_gw_Title x g | None => g end in
  let g := match m with Some x => set_gw_Message x g | None => g end in
  let g := match s with Some x => set_gw_Status x g | None => g end in
  let g := match st with Some x => set_gw_State x g | None => g end in
  gw_Title g = default "" t ∧ gw_Message g = default "" m
  ∧ gw_Status g = default "" s ∧ gw_State g = default "" st.
Proof. by destruct t, m, s, st. Qed.

Theorem handleGrafanaWebhook_extras
    (p : WebhookForwarderPlugin) (rawBody : gmap string value)
    (msg : plugin_Message) :
  In (SendMessage msg) (handleGrafanaWebhook p rawBody) →
  ∃ extras, Extras msg = Some extras ∧
    extras !! "source" = Some (VString "grafana") ∧
    (∀ k, In k grafana_copied_keys →
       extras !! k =
         if String.eqb (string_field rawBody k) "" then None
         else Some (VString (string_field rawBody k))) ∧
    (∀ k, k ≠ "source" → ¬ In k grafana_copied_keys → extras !! k = None).
Proof.
  intros Hin.
  assert (∃ h, In (SendMessage msg)
                  (handleGrafanaWebhook {| msgHandler := Some h |} rawBody))
    as [h Hin'].
  { destruct (handleGrafanaWebhook_forward rawBody)
      as (msg0 & _ & _ & _ & _ & Htr).
    rewrite Htr in Hin. apply forward_SendMessage in Hin as ->.
    exists (fun _ => None). rewrite Htr. left. reflexivity. }
  clear Hin.
  cbv beta iota zeta delta [handleGrafanaWebhook msgHandler] in Hin'.
  apply (In_SendMessage_then_JSON _ _ _
           (fun err => H [("error", VString "Failed to forward Grafana alert");
                          ("details", VString err)])) in Hin' as ->.
  cbn [Extras]. eexists. split; [reflexivity|].
  destruct (grafanaMsg_fields (assert_string (index rawBody "title"))
              (assert_string (index rawBody "message"))
              (assert_string (index rawBody "status"))
              (assert_string (index rawBody "state"))) as (_ & _ & Hs & Hst).
  cbv zeta in Hs, Hst.
  rewrite !Hs, !Hst. clear Hs Hst.
  change (default "" (assert_string (index rawBody "status")))
    with (string_field rawBody "status").
  change (default "" (assert_string (index rawBody "state")))
    with (string_field rawBody "state").
  split_and!.
  - rewrite !lookup_insert_url by done. rewrite !lookup_insert_if by done.
    apply lookup_insert_eq.
  - intros k Hk. cbn in Hk.
    destruct Hk as [<-|[<-|[<-|[<-|[<-|[]]]]]].
    + rewrite !lookup_insert_url, lookup_insert_if by done.
      rewrite lookup_insert_if_eq, lookup_insert_ne, lookup_empty by done.
      by destruct (String.eqb _ "").
    + rewrite !lookup_insert_url by done.
      rewrite lookup_insert_if_eq, lookup_insert_if by done.
      rewrite lookup_insert_ne, lookup_empty by done.
      by destruct (String.eqb _ "").
    + rewrite !lookup_insert_url by done.
      rewrite lookup_insert_url_eq, !lookup_insert_if by done.
      rewrite lookup_insert_ne, lookup_empty by done. apply copied_entry.
    + rewrite lookup_insert_url by done.
      rewrite lookup_insert_url_eq, lookup_insert_url, !lookup_insert_if by done.
      rewrite lookup_insert_ne, lookup_empty by done. apply copied_entry.
    + rewrite lookup_insert_url_eq, !lookup_insert_url, !lookup_insert_if by done.
      rewrite lookup_insert_ne, lookup_empty by done. apply copied_entry.
  - intros k Hsrc Hk.
    assert ("status" ≠ k ∧ "state" ≠ k ∧ "externalURL" ≠ k
            ∧ "dashboardURL" ≠ k ∧ "silenceURL" ≠ k ∧ "source" ≠ k)
      as (? & ? & ? & ? & ? & ?).
    { cbn in Hk. split_and!; intros <-; tauto. }
    rewrite !lookup_insert_url, !lookup_insert_if by done.
    by rewrite lookup_insert_ne, lookup_empty.
Qed.

Lemma handleGrafanaWebhook_extras_witness :
  In (SendMessage resolved_alerting_msg)
     (handleGrafanaWebhook mock_ok resolved_alerting)
  ∧ ∃ extras, Extras resolved_alerting_msg = Some extras
              ∧ extras !! "alerts" = None.
Proof.
  assert (In (SendMessage resolved_alerting_msg)
             (handleGrafanaWebhook mock_ok resolved_alerting)) as Hin.
  { left. reflexivity. }
  split; [exact Hin|].
  destruct (handleGrafanaWebhook_extras mock_ok resolved_alerting
              resolved_alerting_msg Hin) as (extras & He & _ & _ & Hother).
  exists extras. split; [exact He|].
  apply Hother.
  - discriminate.
  - cbn. intros [E|[E|[E|[E|[E|[]]]]]]; discriminate E.
Defined.

(** X4. The title of a generic notification is the "title" of the payload
    when that is a non-empty string, and "Webhook Message" in every other
    case (no "title", a "title" that is not a string, an empty one). *)
Theorem handleGenericWebhook_title
    (a : goarch) (p : WebhookForwarderPlugin) (rawBody : gmap string value)
    (msg : plugin_Message) :
  In (SendMessage msg) (handleGenericWebhook a p rawBody) →
  (∀ t, is_string rawBody "title" t → t ≠ "" → Title msg = t) ∧
  ((∀ t, is_string rawBody "title" t → t = "") → Title msg = "Webhook Message").
Proof.
  intros Hin. rewrite handleGenericWebhook_forward in Hin. cbv zeta in Hin.
  destruct (String.eqb (string_field rawBody "message") "");
    [cbn in Hin; intuition discriminate|].
  apply forward_SendMessage in Hin as ->. cbn [Title]. split.
  - intros t Ht Hne. rewrite (string_field_string _ _ _ Ht).
    apply String.eqb_neq in Hne. by rewrite Hne.
  - intros Hno.
    assert (string_field rawBody "title" = "") as ->; [|done].
    destruct (String.eqb_spec (string_field rawBody "title") "") as [E|E];
      [done|]. apply string_field_nonempty in E. by apply Hno in E.
Qed.

Lemma handleGenericWebhook_title_witness :
  In (SendMessage priority_7_msg) (handleGenericWebhook arm64 mock_ok priority_7)
  ∧ Title priority_7_msg = "Webhook Message".
Proof.
  assert (In (SendMessage priority_7_msg)
             (handleGenericWebhook arm64 mock_ok priority_7)) as Hin.
  { left. reflexivity. }
  split; [exact Hin|].
  apply (proj2 (handleGenericWebhook_title arm64 mock_ok priority_7
                  priority_7_msg Hin)).
  intros t Ht. discriminate Ht.
Defined.

(** X5. The generic handler reads the payload at "title", "message",
    "priority" and "extras" only: two payloads with the same values (or the
    same absence) at these four keys are handled in the same way, event for
    event. *)
Theorem handleGenericWebhook_depends_on_four_keys
    (a : goarch) (p : WebhookForwarderPlugin) (m1 m2 : gmap string value) :
  (∀ k, In k generic_keys → m1 !! k = m2 !! k) →
  handleGenericWebhook a p m1 = handleGenericWebhook a p m2.
Proof.
  intros Hag. rewrite !handleGenericWebhook_forward. unfold string_field.
  rewrite (index_agree m1 m2 "title"), (index_agree m1 m2 "message"),
    (index_agree m1 m2 "priority"), (index_agree m1 m2 "extras");
    try reflexivity; apply Hag; cbn; tauto.
Qed.

Lemma handleGenericWebhook_depends_on_four_keys_witness :
  handleGenericWebhook amd64 mock_ok priority_7
  = handleGenericWebhook amd64 mock_ok priority_7_more.
Proof.
  apply (handleGenericWebhook_depends_on_four_keys amd64 mock_ok
           priority_7 priority_7_more).
  intros k Hk. cbn in Hk.
  destruct Hk as [<-|[<-|[<-|[<-|[]]]]]; reflexivity.
Defined.

(** ** The shape of a trace *)

(** The four ways in which [handleWebhookMessage] ends: the Content-Type is
    refused; the body does not decode to an object; the generic handler
    refuses the payload; a handler forwards a notification. *)
Lemma handleWebhookMessage_cases (a : goarch) (p : WebhookForwarderPlugin)
    (c : Context) :
  (∃ obj, handleWebhookMessage a p c = [JSON StatusBadRequest obj])
  ∨ (∃ obj, handleWebhookMessage a p c = [ShouldBindJSON; JSON StatusBadRequest obj])
  ∨ (∃ obj, handleWebhookMessage a p c =
              [ShouldBindJSON; Call HandleGeneric; JSON StatusBadRequest obj])
  ∨ (∃ h msg failure success,
       handleWebhookMessage a p c =
         ShouldBindJSON :: Call h :: forward p msg failure success).
Proof.
  unfold handleWebhookMessage.
  destruct (negb _ && negb _); [left; by eexists|].
  destruct (bindJSON c) as [err|[rawBody|]];
    [right; left; by eexists | | right; left; by eexists].
  destruct (has_key rawBody "alerts").
  - destruct (handleGrafanaWebhook_forward rawBody)
      as (msg & _ & _ & _ & _ & Htr).
    do 3 right. rewrite Htr. by eexists _, _, _, _.
  - rewrite handleGenericWebhook_forward. cbv zeta.
    destruct (String.eqb _ "").
    + right. right. left. by eexists.
    + do 3 right. by eexists _, _, _, _.
Qed.

(** X6. Every request is answered exactly once, and the response is the last
    thing the handler does; at most one notification is handed to the message
    handler, and never after the response. *)
Theorem handleWebhookMessage_trace_shape
    (a : goarch) (p : WebhookForwarderPlugin) (c : Context) :
  ∃ (pre : list event) code obj,
    handleWebhookMessage a p c = (pre ++ [JSON code obj])%list
    ∧ responses pre = []
    ∧ (length (sent pre) <= 1)%nat.
Proof.
  destruct (handleWebhookMessage_cases a p c)
    as [[obj ->] | [[obj ->] | [[obj ->] | (h & msg & f & s & ->)]]].
  - exists [], StatusBadRequest, obj. split_and!; [done..|cbn; lia].
  - exists [ShouldBindJSON], StatusBadRequest, obj. split_and!; [done..|cbn; lia].
  - exists [ShouldBindJSON; Call HandleGeneric], StatusBadRequest, obj.
    split_and!; [done..|cbn; lia].
  - unfold forward. destruct (msgHandler p) as [hd|]; [destruct (hd msg) as [err|]|].
    + eexists [ShouldBindJSON; Call h; SendMessage msg], _, _.
      split_and!; [done..|cbn; lia].
    + eexists [ShouldBindJSON; Call h; SendMessage msg], _, _.
      split_and!; [done..|cbn; lia].
    + eexists [ShouldBindJSON; Call h], _, _. split_and!; [done..|cbn; lia].
Qed.


(** X8. Nothing is handed to a handler, and nothing is sent, for a request
    that is not a POST of a decodable JSON object: whenever the trace has a
    [Call] or a [SendMessage], the Content-Type was absent, empty or
    "application/json" and the body decoded to a non-nil object. *)
Theorem handlers_need_decoded_object
    (a : goarch) (p : WebhookForwarderPlugin) (c : Context) :
  (∃ h, In (Call h) (handleWebhookMessage a p c))
  ∨ (∃ msg, In (SendMessage msg) (handleWebhookMessage a p c)) →
  (GetHeader c "Content-Type" = "application/json"
   ∨ GetHeader c "Content-Type" = "")
  ∧ ∃ rawBody, bindJSON c = BindOk (Some rawBody).
Proof.
  unfold handleWebhookMessage.
  destruct (String.eqb_spec (GetHeader c "Content-Type") "application/json")
    as [Ej|Ej];
  destruct (String.eqb_spec (GetHeader c "Content-Type") "") as [Ee|Ee];
    cbn [negb andb].
  4: { intros [[h Hin]|[msg Hin]]; cbn in Hin; intuition discriminate. }
  all: destruct (bindJSON c) as [err|[rawBody|]];
    try (intros [[h Hin]|[msg Hin]]; cbn in Hin; intuition discriminate).
  all: intros _; split; [tauto | by eexists].
Qed.

Lemma handlers_need_decoded_object_witness :
  (∃ h, In (Call h)
          (handleWebhookMessage amd64 mock_ok (post [] (BindOk (Some priority_7)))))
  ∧ (GetHeader (post [] (BindOk (Some priority_7))) "Content-Type"
       = "application/json"
     ∨ GetHeader (post [] (BindOk (Some priority_7))) "Content-Type" = "")
  ∧ ∃ rawBody, bindJSON (post [] (BindOk (Some priority_7)))
               = BindOk (Some rawBody).
Proof.
  assert (∃ h, In (Call h)
            (handleWebhookMessage amd64 mock_ok
               (post [] (BindOk (Some priority_7))))) as Hcall.
  { exists HandleGeneric. right. left. reflexivity. }
  split; [exact Hcall|].
  apply (handlers_need_decoded_object amd64 mock_ok
           (post [] (BindOk (Some priority_7)))).
  left. exact Hcall.
Defined.

(** ** The life of an instance *)




(** X10. Once [SetMessageHandler] has been given a handler, no request is
    answered 503: the response is 200, 400 or 500, and every payload handed
    to the Grafana handler makes one notification reach the handler. *)
Theorem instance_with_handler
    (h : MessageHandler) (inst : Instance) (a : goarch) (c : Context) :
  (∀ code obj,
     In (JSON code obj)
        (handleWebhookMessage a (plugin (SetMessageHandler (Some h) inst)) c) →
     code = StatusOK ∨ code = StatusBadRequest ∨ code = StatusInternalServerError)
  ∧ (In (Call HandleGrafana)
        (handleWebhookMessage a (plugin (SetMessageHandler (Some h) inst)) c) →
     ∃ msg,
       sent (handleWebhookMessage a (plugin (SetMessageHandler (Some h) inst)) c)
       = [msg]).
Proof.
  cbn [plugin SetMessageHandler].
  destruct (handleWebhookMessage_cases a {| msgHandler := Some h |} c)
    as [[obj ->] | [[obj ->] | [[obj ->] | (hd & msg & f & s & ->)]]].
  1-3: split; [intros code o Hin | intros Hin]; cbn in Hin;
    intuition (try discriminate; try (right; left; congruence)).
  unfold forward. cbn [msgHandler]. destruct (h msg) as [err|].
  - split; [intros code o Hin | intros _; by exists msg].
    cbn in Hin. intuition (try discriminate; try (right; right; congruence)).
  - split; [intros code o Hin | intros _; by exists msg].
    cbn in Hin. intuition (try discriminate; try (left; congruence)).
Qed.

Lemma instance_with_handler_witness :
  ∃ msg,
    sent (handleWebhookMessage amd64
            (plugin (SetMessageHandler (Some (fun _ => None)) testuser))
            (post [] (BindOk (Some resolved_alerting))))
    = [msg].
Proof.
  apply (instance_with_handler (fun _ => None) testuser amd64
           (post [] (BindOk (Some resolved_alerting)))).
  right. left. reflexivity.
Defined.

(** ** Strings *)

Lemma append_String (c : Ascii.ascii) (s r : string) :
  String c s +:+ r = String c (s +:+ r).
Proof. reflexivity. Qed.

Lemma append_assoc' (s1 s2 s3 : string) :
  (s1 +:+ s2) +:+ s3 = s1 +:+ (s2 +:+ s3).
Proof.
  induction s1 as [|c s1 IH]; [done|]. by rewrite !append_String, IH.
Qed.

Lemma length_append (s1 s2 : string) :
  String.length (s1 +:+ s2) = (String.length s1 + String.length s2)%nat.
Proof.
  induction s1 as [|c s1 IH]; [done|]. rewrite append_String. simpl.
  by rewrite IH.
Qed.

Lemma prefix_append (s r : string) : String.prefix s (s +:+ r) = true.
Proof.
  induction s as [|c s IH]; [by destruct r|].
  rewrite append_String. simpl. by destruct (Ascii.ascii_dec c c).
Qed.

Lemma substring_whole (s : string) : String.substring 0 (String.length s) s = s.
Proof. induction s as [|c s IH]; simpl; [done | by rewrite IH]. Qed.

Lemma substring_append_l (q r : string) :
  String.substring 0 (String.length q) (q +:+ r) = q.
Proof.
  induction q as [|c q IH]; [by destruct r|].
  rewrite append_String. simpl. by rewrite IH.
Qed.

Lemma substring_append_r (q r : string) (m : nat) :
  String.substring (String.length q) m (q +:+ r) = String.substring 0 m r.
Proof.
  induction q as [|c q IH]; [done|]. rewrite append_String. simpl. done.
Qed.

Lemma Contains_prefix (s substr : string) :
  String.prefix substr s = true → Contains s substr = true.
Proof. intros Hp. destruct s; cbn [Contains]; by rewrite Hp. Qed.

(** [Contains]: an occurrence makes it true. *)
Lemma Contains_append (a substr b : string) :
  Contains (a +:+ substr +:+ b) substr = true.
Proof.
  induction a as [|c a IH].
  - change ("" +:+ substr +:+ b) with (substr +:+ b).
    apply Contains_prefix, prefix_append.
  - rewrite append_String. cbn [Contains]. rewrite IH. apply orb_true_r.
Qed.

Lemma Contains_occurrence (text a substr b : string) :
  text = a +:+ substr +:+ b → Contains text substr = true.
Proof. intros ->. apply Contains_append. Qed.

Lemma append_nil_r (s : string) : s +:+ "" = s.
Proof. induction s as [|c s IH]; [done|]. by rewrite append_String, IH. Qed.

Lemma Contains_suffix (q suffix : string) : Contains (q +:+ suffix) suffix = true.
Proof. apply (Contains_occurrence _ q _ ""). by rewrite append_nil_r. Qed.

Lemma append_nonempty (q s : string) : s ≠ "" → String.eqb (q +:+ s) "" = false.
Proof.
  intros Hs. apply String.eqb_neq. destruct q; [done|].
  rewrite append_String. discriminate.
Qed.

(** [HasSuffix] and [TrimSuffix] on a string that ends with the suffix. *)
Lemma HasSuffix_append (q suffix : string) : HasSuffix (q +:+ suffix) suffix = true.
Proof.
  unfold HasSuffix. rewrite length_append.
  replace (String.length q + String.length suffix - String.length suffix)%nat
    with (String.length q) by lia.
  rewrite substring_append_r, substring_whole, String.eqb_refl.
  rewrite andb_true_r. apply Nat.leb_le. lia.
Qed.

Lemma TrimSuffix_append (q suffix : string) : TrimSuffix (q +:+ suffix) suffix = q.
Proof.
  unfold TrimSuffix. rewrite HasSuffix_append, length_append.
  replace (String.length q + String.length suffix - String.length suffix)%nat
    with (String.length q) by lia.
  apply substring_append_l.
Qed.

(** [Contains] and [HasSuffix] say what their names say. *)
Lemma prefix_inv (s1 s2 : string) :
  String.prefix s1 s2 = true → ∃ r, s2 = s1 +:+ r.
Proof.
  revert s1. induction s2 as [|b s2 IH]; intros [|c s1] Hp; simpl in Hp.
  - by exists "".
  - discriminate.
  - by exists (String b s2).
  - destruct (Ascii.ascii_dec c b) as [->|]; [|discriminate].
    destruct (IH s1 Hp) as [r ->]. by exists r.
Qed.

Lemma Contains_spec (s substr : string) :
  Contains s substr = true ↔ ∃ a b, s = a +:+ substr +:+ b.
Proof.
  split; [|intros (a & b & ->); apply Contains_append].
  induction s as [|c s IH]; cbn [Contains]; intros Hc.
  - rewrite orb_false_r in Hc. apply prefix_inv in Hc as [r Hr]. by exists "", r.
  - apply orb_true_iff in Hc as [Hp|Hc].
    + apply prefix_inv in Hp as [r Hr]. by exists "", r.
    + destruct (IH Hc) as (a & b & ->). by exists (String c a), b.
Qed.

Lemma substring_split (s : string) (n : nat) :
  (n <= String.length s)%nat →
  s = String.substring 0 n s +:+ String.substring n (String.length s - n) s.
Proof.
  revert n. induction s as [|c s IH]; intros [|n] Hn;
    cbn [String.substring String.length Nat.sub] in *.
  - done.
  - lia.
  - by rewrite substring_whole.
  - rewrite append_String. f_equal. apply IH. lia.
Qed.

Lemma HasSuffix_spec (s suffix : string) :
  HasSuffix s suffix = true ↔ ∃ q, s = q +:+ suffix.
Proof.
  split; [|intros [q ->]; apply HasSuffix_append].
  unfold HasSuffix. intros Hs. apply andb_true_iff in Hs as [Hl He].
  apply Nat.leb_le in Hl. apply String.eqb_eq in He.
  exists (String.substring 0 (String.length s - String.length suffix) s).
  pose proof (substring_split s (String.length s - String.length suffix)
                ltac:(lia)) as Hsplit.
  replace (String.length s - (String.length s - String.length suffix))%nat
    with (String.length suffix) in Hsplit by lia.
  by rewrite He in Hsplit.
Qed.

(** ** The page of instructions *)

Example test_GetDisplay :
  Contains (GetDisplay testuser None) "Webhook Forwarder Plugin" = true
  ∧ Contains (GetDisplay testuser None) "testuser" = true
  ∧ Contains (GetDisplay testuser None) "POST" = true
  ∧ Contains (GetDisplay testuser None) "Grafana" = true
  ∧ Contains (GetDisplay testuser (Some test_location))
      "https://gotify.example.com/plugin/5/message" = true
  ∧ Contains (GetDisplay testuser (Some test_location)) "testuser" = true.
Proof. repeat split; vm_compute; reflexivity. Qed.

(** The text before the first argument of the format ends with "POST ", the
    text after the second starts with "/message", and the text before the
    last ends with "Active user: ". *)
Lemma display_format_0_POST :
  display_format_0 = TrimSuffix display_format_0 "POST " +:+ "POST ".
Proof. vm_compute. reflexivity. Qed.

Lemma display_format_1_message :
  display_format_1 =
    "/message" +:+ String.substring 8 (String.length display_format_1) display_format_1.
Proof. vm_compute. reflexivity. Qed.

Lemma display_format_3_user :
  display_format_3 =
    TrimSuffix display_format_3 "Active user: " +:+ "Active user: ".
Proof. vm_compute. reflexivity. Qed.

Lemma Sprintf_display_endpoint (base path a3 a4 a5 a6 a7 : string) :
  Contains (Sprintf_display base path a3 a4 a5 a6 a7)
    ("POST " +:+ base +:+ path +:+ "/message") = true.
Proof.
  unfold Sprintf_display.
  rewrite display_format_0_POST, display_format_1_message.
  set (t0 := TrimSuffix _ _). set (t1 := String.substring _ _ _).
  apply (Contains_occurrence _ t0 _
           (t1 +:+ a3 +:+ a4 +:+ display_format_2 +:+ a5 +:+ a6
               +:+ display_format_3 +:+ a7)).
  by rewrite !append_assoc'.
Qed.

Lemma Sprintf_display_user (a1 a2 a3 a4 a5 a6 name : string) :
  HasSuffix (Sprintf_display a1 a2 a3 a4 a5 a6 name) ("Active user: " +:+ name)
  = true.
Proof.
  unfold Sprintf_display. rewrite display_format_3_user.
  set (t3 := TrimSuffix _ _).
  assert (∀ text q suffix, text = q +:+ suffix → HasSuffix text suffix = true)
    as Hsuffix by (intros ? ? ? ->; apply HasSuffix_append).
  apply (Hsuffix _ (display_format_0 +:+ a1 +:+ a2 +:+ display_format_1 +:+ a3
                      +:+ a4 +:+ display_format_2 +:+ a5 +:+ a6 +:+ t3)).
  by rewrite !append_assoc'.
Qed.

(** X11. For a location whose path ends with "/display", the page is the
    format filled with the base URL scheme://host and with the path up to
    "/display", and it shows the line POST scheme://host, that path,
    "/message". *)
Theorem GetDisplay_display_location (p : Instance) (l : URL) (q : string) :
  Path l = q +:+ "/display" →
  GetDisplay p (Some l) =
    Sprintf_display (Scheme l +:+ "://" +:+ Host l) q
                    (Scheme l +:+ "://" +:+ Host l) q
                    (Scheme l +:+ "://" +:+ Host l) q (Name (userCtx p))
  ∧ Contains (GetDisplay p (Some l))
      ("POST " +:+ (Scheme l +:+ "://" +:+ Host l) +:+ q +:+ "/message") = true.
Proof.
  intros HPath.
  assert (GetDisplay p (Some l) =
    Sprintf_display (Scheme l +:+ "://" +:+ Host l) q
                    (Scheme l +:+ "://" +:+ Host l) q
                    (Scheme l +:+ "://" +:+ Host l) q (Name (userCtx p))) as ->.
  { unfold GetDisplay. rewrite HPath. cbv zeta.
    by rewrite append_nonempty, Contains_suffix, TrimSuffix_append. }
  split; [reflexivity | apply Sprintf_display_endpoint].
Qed.

Lemma GetDisplay_display_location_witness :
  Contains (GetDisplay testuser (Some test_location))
    ("POST " +:+ ("https" +:+ "://" +:+ "gotify.example.com") +:+ "/plugin/5"
       +:+ "/message") = true.
Proof.
  apply (GetDisplay_display_location testuser test_location "/plugin/5").
  reflexivity.
Defined.

(** X12. [GetDisplay] looks for "/display" anywhere in the path but removes
    it at the end only: for a location whose path has "/display" elsewhere
    and does not end with it, the page shows the path as it is, "/display"
    included, followed by "/message". *)
Theorem GetDisplay_display_not_last (p : Instance) (l : URL) :
  Contains (Path l) "/display" = true →
  HasSuffix (Path l) "/display" = false →
  GetDisplay p (Some l) =
    Sprintf_display (Scheme l +:+ "://" +:+ Host l) (Path l)
                    (Scheme l +:+ "://" +:+ Host l) (Path l)
                    (Scheme l +:+ "://" +:+ Host l) (Path l) (Name (userCtx p))
  ∧ Contains (GetDisplay p (Some l))
      ("POST " +:+ (Scheme l +:+ "://" +:+ Host l) +:+ Path l +:+ "/message")
    = true.
Proof.
  intros Hc Hs.
  assert (GetDisplay p (Some l) =
    Sprintf_display (Scheme l +:+ "://" +:+ Host l) (Path l)
                    (Scheme l +:+ "://" +:+ Host l) (Path l)
                    (Scheme l +:+ "://" +:+ Host l) (Path l) (Name (userCtx p)))
    as ->.
  { unfold GetDisplay, TrimSuffix. rewrite Hc, Hs.
    destruct (Path l); [discriminate Hc | reflexivity]. }
  split; [reflexivity | apply Sprintf_display_endpoint].
Qed.

Lemma GetDisplay_display_not_last_witness :
  Contains (GetDisplay testuser (Some display_slash))
    ("POST " +:+ ("https" +:+ "://" +:+ "gotify.example.com")
       +:+ "/plugin/5/display/" +:+ "/message") = true.
Proof.
  apply (GetDisplay_display_not_last testuser display_slash); reflexivity.
Defined.

(** X13. Without a location the page shows the endpoint
    /plugin/YOUR_PLUGIN_ID/custom/YOUR_USER_TOKEN/message with no base URL;
    for a location whose path is empty or has no "/display" it shows the
    same path after the base URL scheme://host. *)
Theorem GetDisplay_placeholder (p : Instance) :
  GetDisplay p None =
    Sprintf_display "" "/plugin/YOUR_PLUGIN_ID/custom/YOUR_USER_TOKEN"
                    "" "/plugin/YOUR_PLUGIN_ID/custom/YOUR_USER_TOKEN"
                    "" "/plugin/YOUR_PLUGIN_ID/custom/YOUR_USER_TOKEN"
                    (Name (userCtx p))
  ∧ ∀ l, Contains (Path l) "/display" = false →
      Contains (GetDisplay p (Some l))
        ("POST " +:+ (Scheme l +:+ "://" +:+ Host l)
           +:+ "/plugin/YOUR_PLUGIN_ID/custom/YOUR_USER_TOKEN" +:+ "/message")
      = true.
Proof.
  split; [reflexivity|]. intros l Hc.
  assert (GetDisplay p (Some l) =
    Sprintf_display (Scheme l +:+ "://" +:+ Host l)
                    "/plugin/YOUR_PLUGIN_ID/custom/YOUR_USER_TOKEN"
                    (Scheme l +:+ "://" +:+ Host l)
                    "/plugin/YOUR_PLUGIN_ID/custom/YOUR_USER_TOKEN"
                    (Scheme l +:+ "://" +:+ Host l)
                    "/plugin/YOUR_PLUGIN_ID/custom/YOUR_USER_TOKEN"
                    (Name (userCtx p))) as ->.
  { unfold GetDisplay. rewrite Hc. by destruct (negb _). }
  apply Sprintf_display_endpoint.
Qed.

Lemma GetDisplay_placeholder_witness :
  Contains (GetDisplay testuser (Some no_display))
    ("POST " +:+ ("https" +:+ "://" +:+ "gotify.example.com")
       +:+ "/plugin/YOUR_PLUGIN_ID/custom/YOUR_USER_TOKEN" +:+ "/message")
  = true.
Proof.
  apply (proj2 (GetDisplay_placeholder testuser) no_display). reflexivity.
Defined.

(** X14. Whatever the location, the page starts with the heading
    "# Webhook Forwarder Plugin" and ends with "Active user: " followed by
    the name of the user of the instance. *)
Theorem GetDisplay_heading_and_user (p : Instance) (location : option URL) :
  String.prefix "# Webhook Forwarder Plugin" (GetDisplay p location) = true
  ∧ HasSuffix (GetDisplay p location) ("Active user: " +:+ Name (userCtx p))
    = true.
Proof.
  unfold GetDisplay. cbv zeta. split; [|apply Sprintf_display_user].
  unfold Sprintf_display.
  replace display_format_0
    with ("# Webhook Forwarder Plugin"
          +:+ String.substring 26 (String.length display_format_0) display_format_0)
    by (vm_compute; reflexivity).
  rewrite append_assoc'. apply prefix_append.
Qed.
